(** * ACP Healthcare Insurance System: policy and claim lifecycle

    A shallow embedding of the request handlers of [main_system.py]
    (users, plans, policies, claims, payments) over an explicit model of
    the relational store and of the object-relational layer, and the
    properties of the lifecycle and entitlement rules stated about them.

    Conventions of the embedding:
    - a table is the list of its rows in insertion (rowid) order; a query
      [db.query(T).filter(c).first()] is [List.find] behind the checks
      the layer makes before it runs a statement, [.all()] is
      [List.filter], [.offset(n).limit(m)] is [offset_limit];
    - the mapped classes declare relationships; the layer configures
      them at the first query or instantiation of a mapped class, and
      refuses to run anything when a join condition cannot be
      determined ([configure_mappers]).  Handlers take the declared
      relationships as their first argument, [MAPPERS] being the ones
      [main_system.py] declares;
    - a handler is a function of the request, the store, the caller that
      [get_current_user] resolved from the token, and what the handler
      reads from its environment (the clock, the random number string);
      it returns the response together with the committed store, or
      the exception it raises, in which case nothing was committed;
    - [Float] columns are IEEE binary64 values ([PrimFloat.float]) as
      the store gives them back ([sqlite_real]); integers bound to a
      statement are signed 64-bit ([sqlite_int]);
    - the clock readings ([datetime.utcnow()], explicit or as a column
      default) taken while one request is served are one instant,
      [utcnow]. *)

From Stdlib Require Import ZArith List String Bool Lia Floats.
Import ListNotations.

Open Scope string_scope.
Open Scope Z_scope.

(** ** Results of a handler *)

Inductive exception : Type :=
| HTTPException (status_code : Z) (detail : string)
| IntegrityError   (* a UNIQUE or NOT NULL constraint rejected at [db.commit()] *)
| OverflowError    (* a date or an integer out of the range of its type *)
| InvalidRequestError. (* the mappers failed to initialize *)

Inductive result (A : Type) : Type :=
| Ok (a : A)
| Raise (e : exception).

Arguments Ok {A} a.
Arguments Raise {A} e.

Definition bind {A B : Type} (r : result A) (k : A -> result B) : result B :=
  match r with
  | Ok a => k a
  | Raise e => Raise e
  end.

Notation "x <- r ;; k" := (bind r (fun x => k))
  (at level 61, r at next level, right associativity).

Definition is_ok {A : Type} (r : result A) : bool :=
  match r with Ok _ => true | Raise _ => false end.

(** ** Enumerations *)

Inductive UserRole : Type := ADMIN | AGENT | CUSTOMER | PROVIDER.
Inductive PolicyStatus : Type := ACTIVE | PENDING | EXPIRED | CANCELLED.
Inductive ClaimStatus : Type :=
  SUBMITTED | UNDER_REVIEW | APPROVED | REJECTED | PAID.
Inductive PlanType : Type := BASIC | STANDARD | PREMIUM | ENTERPRISE.

Definition UserRole_eqb (a b : UserRole) : bool :=
  match a, b with
  | ADMIN, ADMIN | AGENT, AGENT | CUSTOMER, CUSTOMER | PROVIDER, PROVIDER => true
  | _, _ => false
  end.

Definition PolicyStatus_eqb (a b : PolicyStatus) : bool :=
  match a, b with
  | ACTIVE, ACTIVE | PENDING, PENDING | EXPIRED, EXPIRED
  | CANCELLED, CANCELLED => true
  | _, _ => false
  end.

Definition ClaimStatus_eqb (a b : ClaimStatus) : bool :=
  match a, b with
  | SUBMITTED, SUBMITTED | UNDER_REVIEW, UNDER_REVIEW | APPROVED, APPROVED
  | REJECTED, REJECTED | PAID, PAID => true
  | _, _ => false
  end.

(** ** Dates

    [datetime] follows CPython's [datetime] module: a value is a
    proleptic Gregorian ordinal (day 1 is 0001-01-01) and a time of day
    in microseconds.  [ymd2ord] is CPython's [_ymd2ord]; adding a
    [timedelta(days=n)] moves the ordinal and raises [OverflowError]
    outside [1 .. _MAXORDINAL]. *)

Record datetime : Type := mkDatetime {
  ordinal : Z;
  microsecond_of_day : Z
}.

Definition MAXORDINAL : Z := 3652059. (* 9999-12-31 *)

Definition is_leap (year : Z) : bool :=
  (year mod 4 =? 0) && (negb (year mod 100 =? 0) || (year mod 400 =? 0)).

Definition days_before_year (year : Z) : Z :=
  let y := year - 1 in y * 365 + y / 4 - y / 100 + y / 400.

Definition DAYS_BEFORE_MONTH : list Z :=
  [0; 31; 59; 90; 120; 151; 181; 212; 243; 273; 304; 334].

Definition days_before_month (year month : Z) : Z :=
  nth (Z.to_nat (month - 1)) DAYS_BEFORE_MONTH 0
  + (if (2 <? month) && is_leap year then 1 else 0).

Definition ymd2ord (year month day : Z) : Z :=
  days_before_year year + days_before_month year month + day.

(** [datetime(year, month, day)], at midnight. *)
Definition datetime_ymd (year month day : Z) : datetime :=
  mkDatetime (ymd2ord year month day) 0.

(** [d + timedelta(days=n)]. *)
Definition add_days (d : datetime) (n : Z) : result datetime :=
  let o := ordinal d + n in
  if (0 <? o) && (o <=? MAXORDINAL)
  then Ok (mkDatetime o (microsecond_of_day d))
  else Raise OverflowError.

(** ** JSON values kept in [Text] columns

    [benefits], [exclusions] and [beneficiaries] hold [json.dumps(v)];
    the model keeps the value [v] that the text encodes. *)

#[local] Unset Elimination Schemes.
Inductive json : Type :=
| JNull
| JBool (b : bool)
| JNumber (x : float)
| JString (s : string)
| JArray (l : list json)
| JObject (fields : list (string * json)).
#[local] Set Elimination Schemes.

(** ** Tables *)

Module User.
Record t : Type := mk {
  id : Z;
  email : string;
  username : string;
  hashed_password : string;
  full_name : option string;
  phone : option string;
  address : option string;
  role : UserRole;
  is_active : bool;
  created_at : datetime;
  updated_at : datetime
}.
End User.

Module InsurancePlan.
Record t : Type := mk {
  id : Z;
  name : string;
  plan_type : PlanType;
  description : option string;
  monthly_premium : float;
  annual_premium : float;
  coverage_amount : float;
  deductible : option float;
  copay_percentage : option float;
  max_out_of_pocket : option float;
  benefits : option json;
  exclusions : option json;
  is_active : bool;
  created_at : datetime
}.
End InsurancePlan.

Module Policy.
Record t : Type := mk {
  id : Z;
  policy_number : string;
  user_id : Z;
  plan_id : Z;
  start_date : datetime;
  end_date : datetime;
  status : PolicyStatus;
  premium_amount : float;
  payment_frequency : string;
  beneficiaries : option json;
  created_at : datetime;
  updated_at : datetime
}.
End Policy.

Module Claim.
Record t : Type := mk {
  id : Z;
  claim_number : string;
  user_id : Z;
  policy_id : Z;
  claim_date : datetime;
  service_date : datetime;
  provider_name : string;
  diagnosis_code : option string;
  procedure_code : option string;
  claim_amount : float;
  approved_amount : option float;
  status : ClaimStatus;
  notes : option string;
  documents : option json;
  reviewed_by : option Z;
  review_date : option datetime;
  created_at : datetime;
  updated_at : datetime
}.
End Claim.

Module Payment.
Record t : Type := mk {
  id : Z;
  payment_reference : string;
  user_id : Z;
  policy_id : Z;
  amount : float;
  payment_date : datetime;
  payment_method : string;
  transaction_id : option string;
  status : string;
  description : option string;
  created_at : datetime
}.
End Payment.

(** The store: one list of rows per table. *)
Record DB : Type := mkDB {
  users : list User.t;
  insurance_plans : list InsurancePlan.t;
  policies : list Policy.t;
  claims : list Claim.t;
  payments : list Payment.t
}.

(** ** Request bodies (the pydantic models) *)

Module UserCreate.
Record t : Type := mk {
  email : string;
  username : string;
  full_name : option string;
  phone : option string;
  address : option string;
  role : UserRole;
  password : string
}.
End UserCreate.

Module InsurancePlanCreate.
Record t : Type := mk {
  name : string;
  plan_type : PlanType;
  description : option string;
  monthly_premium : float;
  annual_premium : float;
  coverage_amount : float;
  deductible : float;
  copay_percentage : float;
  max_out_of_pocket : option float;
  benefits : option (list (string * json));
  exclusions : option (list string)
}.
End InsurancePlanCreate.

Module PolicyCreate.
Record t : Type := mk {
  plan_id : Z;
  start_date : datetime;
  payment_frequency : string;
  beneficiaries : option (list (list (string * string)))
}.
End PolicyCreate.

Module ClaimCreate.
Record t : Type := mk {
  policy_id : Z;
  service_date : datetime;
  provider_name : string;
  diagnosis_code : option string;
  procedure_code : option string;
  claim_amount : float;
  notes : option string
}.
End ClaimCreate.

Module ClaimUpdate.
Record t : Type := mk {
  status : option ClaimStatus;
  approved_amount : option float;
  notes : option string
}.
End ClaimUpdate.

Module PaymentCreate.
Record t : Type := mk {
  policy_id : Z;
  amount : float;
  payment_method : string;
  transaction_id : option string;
  description : option string
}.
End PaymentCreate.

(** ** The object-relational layer

    The foreign keys of the tables and the relationships of the mapped
    classes, as declared.  Before the first statement runs the layer
    determines, for every relationship, the join between the two tables:
    among the foreign keys that link them (restricted to [foreign_keys]
    when the relationship names some) there must be exactly one.  When
    a relationship fails, every later use of a mapped class raises
    [InvalidRequestError]; the start-up hook has met, and logged, the
    first report of the failure. *)

Record foreign_key : Type := mkFK {
  fk_table : string;
  fk_column : string;
  fk_target : string
}.

Record relationship : Type := mkRel {
  rel_class : string;
  rel_attribute : string;
  rel_argument : string;
  rel_foreign_keys : option (list (string * string))
}.

(** [__tablename__] of each mapped class. *)
Definition TABLENAMES : list (string * string) :=
  [("User", "users"); ("InsurancePlan", "insurance_plans");
   ("Policy", "policies"); ("Claim", "claims"); ("Payment", "payments")].

(** The [ForeignKey] columns. *)
Definition FOREIGN_KEYS : list foreign_key :=
  [mkFK "policies" "user_id" "users";
   mkFK "policies" "plan_id" "insurance_plans";
   mkFK "claims" "user_id" "users";
   mkFK "claims" "policy_id" "policies";
   mkFK "claims" "reviewed_by" "users";
   mkFK "payments" "user_id" "users";
   mkFK "payments" "policy_id" "policies"].

(** The [relationship(...)] attributes. *)
Definition MAPPERS : list relationship :=
  [mkRel "User" "policies" "Policy" None;
   mkRel "User" "claims" "Claim" None;
   mkRel "User" "payments" "Payment" None;
   mkRel "InsurancePlan" "policies" "Policy" None;
   mkRel "Policy" "user" "User" None;
   mkRel "Policy" "plan" "InsurancePlan" None;
   mkRel "Policy" "claims" "Claim" None;
   mkRel "Policy" "payments" "Payment" None;
   mkRel "Claim" "user" "User" (Some [("claims", "user_id")]);
   mkRel "Claim" "policy" "Policy" None;
   mkRel "Payment" "user" "User" None;
   mkRel "Payment" "policy" "Policy" None].

Definition tablename (class : string) : option string :=
  option_map snd (find (fun c => (fst c =? class)%string) TABLENAMES).

Definition links (k : foreign_key) (a b : string) : bool :=
  ((fk_table k =? a)%string && (fk_target k =? b)%string)
  || ((fk_table k =? b)%string && (fk_target k =? a)%string).

Definition names_column (cols : list (string * string)) (k : foreign_key)
    : bool :=
  existsb (fun c => (fst c =? fk_table k)%string
                    && (snd c =? fk_column k)%string) cols.

Definition join_candidates (r : relationship) : list foreign_key :=
  match tablename (rel_class r), tablename (rel_argument r) with
  | Some a, Some b =>
      let between := filter (fun k => links k a b) FOREIGN_KEYS in
      match rel_foreign_keys r with
      | None => between
      | Some cols => filter (names_column cols) between
      end
  | _, _ => []
  end.

Definition determine_join (r : relationship) : result unit :=
  match join_candidates r with
  | [_] => Ok tt
  | _ => Raise InvalidRequestError
  end.

Fixpoint configure_mappers (registry : list relationship) : result unit :=
  match registry with
  | [] => Ok tt
  | r :: rest => _ <- determine_join r ;; configure_mappers rest
  end.

(** ** Values bound to and read from the store (SQLite)

    An integer parameter outside the signed 64-bit range is refused by
    the driver.  A REAL is read back as it was written, except that a
    NaN is stored as NULL and a negative zero comes back as zero. *)

Definition INT64_MIN : Z := -9223372036854775808.
Definition INT64_MAX : Z := 9223372036854775807.

Definition sqlite_int (n : Z) : result Z :=
  if (INT64_MIN <=? n) && (n <=? INT64_MAX) then Ok n
  else Raise OverflowError.

Definition sqlite_real (x : float) : option float :=
  match PrimFloat.classify x with
  | NaN => None
  | NZero => Some 0%float
  | _ => Some x
  end.

(** A REAL written to a NOT NULL column. *)
Definition sqlite_real_not_null (x : float) : result float :=
  match sqlite_real x with
  | Some y => Ok y
  | None => Raise IntegrityError
  end.

(** ** Queries and commits *)

(** [query.offset(skip).limit(limit).all()]: both numbers are bound to
    the statement; a negative OFFSET counts as zero and a negative LIMIT
    as no limit. *)
Definition offset_limit {A : Type} (skip limit : Z) (rows : list A)
    : result (list A) :=
  skip <- sqlite_int skip ;;
  limit <- sqlite_int limit ;;
  let rest := skipn (Z.to_nat skip) rows in
  Ok (if limit <? 0 then rest else firstn (Z.to_nat limit) rest).

(** The primary key an INSERT assigns: one more than the largest in use. *)
Definition next_id (ids : list Z) : Z := 1 + fold_right Z.max 0 ids.

(** The UPDATE a commit issues for the row that [first()] returned: the
    first row satisfying [sel] is replaced by its image under [upd]. *)
Fixpoint update_first {A : Type} (sel : A -> bool) (upd : A -> A)
    (rows : list A) : list A :=
  match rows with
  | [] => []
  | r :: rest =>
      if sel r then upd r :: rest else r :: update_first sel upd rest
  end.

Definition set_users (db : DB) (l : list User.t) : DB :=
  mkDB l (insurance_plans db) (policies db) (claims db) (payments db).
Definition set_insurance_plans (db : DB) (l : list InsurancePlan.t) : DB :=
  mkDB (users db) l (policies db) (claims db) (payments db).
Definition set_policies (db : DB) (l : list Policy.t) : DB :=
  mkDB (users db) (insurance_plans db) l (claims db) (payments db).
Definition set_claims (db : DB) (l : list Claim.t) : DB :=
  mkDB (users db) (insurance_plans db) (policies db) l (payments db).
Definition set_payments (db : DB) (l : list Payment.t) : DB :=
  mkDB (users db) (insurance_plans db) (policies db) (claims db) l.

(** The row of a table under an id, and the user under a username:
    what the store holds, whoever asks. *)
Definition user_by_id (user_id : Z) (db : DB) : option User.t :=
  find (fun u => User.id u =? user_id) (users db).
Definition plan_by_id (plan_id : Z) (db : DB) : option InsurancePlan.t :=
  find (fun p => InsurancePlan.id p =? plan_id) (insurance_plans db).
Definition policy_by_id (policy_id : Z) (db : DB) : option Policy.t :=
  find (fun p => Policy.id p =? policy_id) (policies db).
Definition claim_by_id (claim_id : Z) (db : DB) : option Claim.t :=
  find (fun c => Claim.id c =? claim_id) (claims db).
Definition user_by_username (username : string) (db : DB) : option User.t :=
  find (fun u => (User.username u =? username)%string) (users db).

(** [db.query(T).filter(T.id == id).first()]: the mappers are
    configured, the id is bound, the statement runs. *)
Definition first_user (registry : list relationship) (user_id : Z) (db : DB)
    : result (option User.t) :=
  _ <- configure_mappers registry ;;
  user_id <- sqlite_int user_id ;;
  Ok (user_by_id user_id db).
Definition first_plan (registry : list relationship) (plan_id : Z) (db : DB)
    : result (option InsurancePlan.t) :=
  _ <- configure_mappers registry ;;
  plan_id <- sqlite_int plan_id ;;
  Ok (plan_by_id plan_id db).
Definition first_policy (registry : list relationship) (policy_id : Z)
    (db : DB) : result (option Policy.t) :=
  _ <- configure_mappers registry ;;
  policy_id <- sqlite_int policy_id ;;
  Ok (policy_by_id policy_id db).
Definition first_claim (registry : list relationship) (claim_id : Z) (db : DB)
    : result (option Claim.t) :=
  _ <- configure_mappers registry ;;
  claim_id <- sqlite_int claim_id ;;
  Ok (claim_by_id claim_id db).

(** [query.offset(skip).limit(limit).all()] on the rows a query selects. *)
Definition all_rows {A : Type} (registry : list relationship)
    (skip limit : Z) (rows : list A) : result (list A) :=
  _ <- configure_mappers registry ;;
  offset_limit skip limit rows.

(** Python truthiness of the optional values the handlers test. *)
Definition truthy_list {A : Type} (o : option (list A)) : option (list A) :=
  match o with
  | Some (_ :: _) => o
  | _ => None
  end.

Definition truthy_string (o : option string) : option string :=
  match o with
  | Some EmptyString => None
  | _ => o
  end.

Definition dumps_beneficiaries (b : list (list (string * string))) : json :=
  JArray (map (fun d => JObject (map (fun kv => (fst kv, JString (snd kv))) d)) b).

(** ** Dependencies *)

(** [get_current_user], from the [sub] claim decoded from the bearer
    token ([None] when the token does not verify). *)
Definition get_current_user (registry : list relationship)
    (sub : option string) (db : DB) : result User.t :=
  let credentials_exception :=
    HTTPException 401 "Could not validate credentials" in
  match sub with
  | None => Raise credentials_exception
  | Some username =>
      _ <- configure_mappers registry ;;
      match user_by_username username db with
      | None => Raise credentials_exception
      | Some user => Ok user
      end
  end.

Definition get_current_active_user (current_user : User.t) : result User.t :=
  if User.is_active current_user then Ok current_user
  else Raise (HTTPException 400 "Inactive user").

Definition check_admin (current_user : User.t) : result User.t :=
  u <- get_current_active_user current_user ;;
  if negb (UserRole_eqb (User.role u) ADMIN)
  then Raise (HTTPException 403 "Not enough permissions")
  else Ok u.

(** An endpoint that depends on the current user: the dependency is
    resolved, then the handler runs. *)
Definition authenticated {A : Type} (registry : list relationship)
    (sub : option string) (db : DB) (handler : User.t -> result A)
    : result A :=
  current_user <- get_current_user registry sub db ;;
  handler current_user.

(** ** Users and plans *)

(** [POST /register]; [hashed] is [get_password_hash(user.password)]. *)
Definition register (registry : list relationship) (user : UserCreate.t)
    (db : DB) (hashed : string) (utcnow : datetime)
    : result (DB * User.t) :=
  _ <- configure_mappers registry ;;
  match find (fun u => (User.email u =? UserCreate.email user)%string
                       || (User.username u =? UserCreate.username user)%string)
             (users db) with
  | Some _ => Raise (HTTPException 400 "Email or username already registered")
  | None =>
      let db_user :=
        User.mk (next_id (map User.id (users db)))
          (UserCreate.email user) (UserCreate.username user) hashed
          (UserCreate.full_name user) (UserCreate.phone user)
          (UserCreate.address user) (UserCreate.role user)
          true utcnow utcnow in
      Ok (set_users db (users db ++ [db_user]), db_user)
  end.

(** [POST /plans].  The handler runs no query: the mappers are
    configured when [InsurancePlan(...)] is instantiated. *)
Definition create_plan (registry : list relationship)
    (plan : InsurancePlanCreate.t) (db : DB)
    (current_user : User.t) (utcnow : datetime)
    : result (DB * InsurancePlan.t) :=
  _ <- check_admin current_user ;;
  _ <- configure_mappers registry ;;
  monthly_premium <-
    sqlite_real_not_null (InsurancePlanCreate.monthly_premium plan) ;;
  annual_premium <-
    sqlite_real_not_null (InsurancePlanCreate.annual_premium plan) ;;
  coverage_amount <-
    sqlite_real_not_null (InsurancePlanCreate.coverage_amount plan) ;;
  let db_plan :=
    InsurancePlan.mk (next_id (map InsurancePlan.id (insurance_plans db)))
      (InsurancePlanCreate.name plan) (InsurancePlanCreate.plan_type plan)
      (InsurancePlanCreate.description plan)
      monthly_premium annual_premium coverage_amount
      (sqlite_real (InsurancePlanCreate.deductible plan))
      (sqlite_real (InsurancePlanCreate.copay_percentage plan))
      match InsurancePlanCreate.max_out_of_pocket plan with
      | Some x => sqlite_real x
      | None => None
      end
      (option_map (fun b => JObject b)
         (truthy_list (InsurancePlanCreate.benefits plan)))
      (option_map (fun e => JArray (map JString e))
         (truthy_list (InsurancePlanCreate.exclusions plan)))
      true utcnow in
  Ok (set_insurance_plans db (insurance_plans db ++ [db_plan]), db_plan).

(** [GET /plans]; no authentication. *)
Definition get_plans (registry : list relationship) (skip limit : Z)
    (db : DB) : result (list InsurancePlan.t) :=
  all_rows registry skip limit
    (filter InsurancePlan.is_active (insurance_plans db)).

(** [GET /plans/{plan_id}]; no authentication. *)
Definition get_plan (registry : list relationship) (plan_id : Z) (db : DB)
    : result InsurancePlan.t :=
  plan <- first_plan registry plan_id db ;;
  match plan with
  | None => Raise (HTTPException 404 "Plan not found")
  | Some plan => Ok plan
  end.

(** [GET /admin/users]. *)
Definition get_all_users (registry : list relationship) (skip limit : Z)
    (db : DB) (current_user : User.t) : result (list User.t) :=
  _ <- check_admin current_user ;;
  all_rows registry skip limit (users db).

(** The row [deactivate_user] writes back.  [updated_at] has
    [onupdate=datetime.utcnow]: it is refreshed when the UPDATE is
    issued, that is when a column really changed. *)
Definition deactivated (utcnow : datetime) (user : User.t) : User.t :=
  if User.is_active user then
    User.mk (User.id user) (User.email user) (User.username user)
      (User.hashed_password user) (User.full_name user)
      (User.phone user) (User.address user) (User.role user)
      false (User.created_at user) utcnow
  else user.

(** [PATCH /admin/users/{user_id}/deactivate]. *)
Definition deactivate_user (registry : list relationship) (user_id : Z)
    (db : DB) (current_user : User.t) (utcnow : datetime)
    : result (DB * User.t) :=
  _ <- check_admin current_user ;;
  user <- first_user registry user_id db ;;
  match user with
  | None => Raise (HTTPException 404 "User not found")
  | Some user =>
      let user := deactivated utcnow user in
      Ok (set_users db
            (update_first (fun u => User.id u =? user_id) (fun _ => user)
               (users db)),
          user)
  end.

(** ** Policies *)

(** [POST /policies]; [number] is what [generate_policy_number()]
    returned.  [policy_number] is UNIQUE: the commit of a number already
    in the table raises. *)
Definition create_policy (registry : list relationship)
    (policy : PolicyCreate.t) (db : DB)
    (current_user : User.t) (number : string) (utcnow : datetime)
    : result (DB * Policy.t) :=
  current_user <- get_current_active_user current_user ;;
  plan <- first_plan registry (PolicyCreate.plan_id policy) db ;;
  match plan with
  | None => Raise (HTTPException 404 "Insurance plan not found")
  | Some plan =>
      end_date <- add_days (PolicyCreate.start_date policy) 365 ;;
      let premium_amount :=
        if (PolicyCreate.payment_frequency policy =? "monthly")%string
        then InsurancePlan.monthly_premium plan
        else InsurancePlan.annual_premium plan in
      premium_amount <- sqlite_real_not_null premium_amount ;;
      let db_policy :=
        Policy.mk (next_id (map Policy.id (policies db)))
          number
          (User.id current_user)
          (PolicyCreate.plan_id policy)
          (PolicyCreate.start_date policy)
          end_date
          PENDING
          premium_amount
          (PolicyCreate.payment_frequency policy)
          (option_map dumps_beneficiaries
             (truthy_list (PolicyCreate.beneficiaries policy)))
          utcnow utcnow in
      if existsb (fun p => (Policy.policy_number p =? number)%string)
           (policies db)
      then Raise IntegrityError
      else Ok (set_policies db (policies db ++ [db_policy]), db_policy)
  end.

(** [GET /policies]. *)
Definition get_policies (registry : list relationship) (skip limit : Z)
    (db : DB) (current_user : User.t) : result (list Policy.t) :=
  current_user <- get_current_active_user current_user ;;
  if UserRole_eqb (User.role current_user) ADMIN
  then all_rows registry skip limit (policies db)
  else all_rows registry skip limit
         (filter (fun p => Policy.user_id p =? User.id current_user)
            (policies db)).

(** [GET /policies/{policy_id}]. *)
Definition get_policy (registry : list relationship) (policy_id : Z)
    (db : DB) (current_user : User.t) : result Policy.t :=
  current_user <- get_current_active_user current_user ;;
  policy <- first_policy registry policy_id db ;;
  match policy with
  | None => Raise (HTTPException 404 "Policy not found")
  | Some policy =>
      if negb (UserRole_eqb (User.role current_user) ADMIN)
         && negb (Policy.user_id policy =? User.id current_user)
      then Raise (HTTPException 403 "Not authorized to view this policy")
      else Ok policy
  end.

(** [policy.status = s] followed by the commit: the row changes, and
    [updated_at] (which has [onupdate=datetime.utcnow]) is refreshed,
    when the assigned value differs from the stored one. *)
Definition assign_status (s : PolicyStatus) (utcnow : datetime)
    (p : Policy.t) : Policy.t :=
  if PolicyStatus_eqb (Policy.status p) s then p
  else
    Policy.mk (Policy.id p) (Policy.policy_number p) (Policy.user_id p)
      (Policy.plan_id p) (Policy.start_date p) (Policy.end_date p)
      s (Policy.premium_amount p) (Policy.payment_frequency p)
      (Policy.beneficiaries p) (Policy.created_at p) utcnow.

(** [PATCH /policies/{policy_id}/activate]. *)
Definition activate_policy (registry : list relationship) (policy_id : Z)
    (db : DB) (current_user : User.t) (utcnow : datetime)
    : result (DB * Policy.t) :=
  _ <- check_admin current_user ;;
  policy <- first_policy registry policy_id db ;;
  match policy with
  | None => Raise (HTTPException 404 "Policy not found")
  | Some policy =>
      let policy := assign_status ACTIVE utcnow policy in
      Ok (set_policies db
            (update_first (fun p => Policy.id p =? policy_id)
               (fun _ => policy) (policies db)),
          policy)
  end.

(** ** Claims *)

(** [POST /claims]; [number] is what [generate_claim_number()] returned. *)
Definition create_claim (registry : list relationship)
    (claim : ClaimCreate.t) (db : DB)
    (current_user : User.t) (number : string) (utcnow : datetime)
    : result (DB * Claim.t) :=
  current_user <- get_current_active_user current_user ;;
  policy <- first_policy registry (ClaimCreate.policy_id claim) db ;;
  match policy with
  | None => Raise (HTTPException 404 "Policy not found")
  | Some policy =>
      if negb (Policy.user_id policy =? User.id current_user)
         && negb (UserRole_eqb (User.role current_user) ADMIN)
      then Raise (HTTPException 403
                    "Not authorized to create claim for this policy")
      else if negb (PolicyStatus_eqb (Policy.status policy) ACTIVE)
      then Raise (HTTPException 400 "Policy is not active")
      else
        claim_amount <-
          sqlite_real_not_null (ClaimCreate.claim_amount claim) ;;
        let db_claim :=
          Claim.mk (next_id (map Claim.id (claims db)))
            number
            (User.id current_user)
            (ClaimCreate.policy_id claim)
            utcnow
            (ClaimCreate.service_date claim)
            (ClaimCreate.provider_name claim)
            (ClaimCreate.diagnosis_code claim)
            (ClaimCreate.procedure_code claim)
            claim_amount
            (Some 0%float)
            SUBMITTED
            (ClaimCreate.notes claim)
            None None None
            utcnow utcnow in
        if existsb (fun c => (Claim.claim_number c =? number)%string)
             (claims db)
        then Raise IntegrityError
        else Ok (set_claims db (claims db ++ [db_claim]), db_claim)
  end.

(** [GET /claims]. *)
Definition get_claims (registry : list relationship) (skip limit : Z)
    (status : option ClaimStatus)
    (db : DB) (current_user : User.t) : result (list Claim.t) :=
  current_user <- get_current_active_user current_user ;;
  let query := claims db in
  let query :=
    if negb (UserRole_eqb (User.role current_user) ADMIN)
    then filter (fun c => Claim.user_id c =? User.id current_user) query
    else query in
  let query :=
    match status with
    | Some s => filter (fun c => ClaimStatus_eqb (Claim.status c) s) query
    | None => query
    end in
  all_rows registry skip limit query.

(** [GET /claims/{claim_id}]. *)
Definition get_claim (registry : list relationship) (claim_id : Z) (db : DB)
    (current_user : User.t) : result Claim.t :=
  current_user <- get_current_active_user current_user ;;
  claim <- first_claim registry claim_id db ;;
  match claim with
  | None => Raise (HTTPException 404 "Claim not found")
  | Some claim =>
      if negb (UserRole_eqb (User.role current_user) ADMIN)
         && negb (Claim.user_id claim =? User.id current_user)
      then Raise (HTTPException 403 "Not authorized to view this claim")
      else Ok claim
  end.

(** The three conditional assignments of [update_claim], then
    [claim.updated_at = datetime.utcnow()], as the row reads after the
    commit.  Every [ClaimStatus] is a non-empty string, hence truthy; an
    empty [notes] is not. *)
Definition apply_claim_update (claim_update : ClaimUpdate.t)
    (reviewer : Z) (utcnow : datetime) (claim : Claim.t) : Claim.t :=
  let '(status, reviewed_by, review_date) :=
    match ClaimUpdate.status claim_update with
    | Some s => (s, Some reviewer, Some utcnow)
    | None =>
        (Claim.status claim, Claim.reviewed_by claim, Claim.review_date claim)
    end in
  let approved_amount :=
    match ClaimUpdate.approved_amount claim_update with
    | Some a => sqlite_real a
    | None => Claim.approved_amount claim
    end in
  let notes :=
    match truthy_string (ClaimUpdate.notes claim_update) with
    | Some n => Some n
    | None => Claim.notes claim
    end in
  Claim.mk (Claim.id claim) (Claim.claim_number claim) (Claim.user_id claim)
    (Claim.policy_id claim) (Claim.claim_date claim)
    (Claim.service_date claim) (Claim.provider_name claim)
    (Claim.diagnosis_code claim) (Claim.procedure_code claim)
    (Claim.claim_amount claim) approved_amount status notes
    (Claim.documents claim) reviewed_by review_date
    (Claim.created_at claim) utcnow.

(** [PATCH /claims/{claim_id}]. *)
Definition update_claim (registry : list relationship) (claim_id : Z)
    (claim_update : ClaimUpdate.t)
    (db : DB) (current_user : User.t) (utcnow : datetime)
    : result (DB * Claim.t) :=
  current_user <- get_current_active_user current_user ;;
  claim <- first_claim registry claim_id db ;;
  match claim with
  | None => Raise (HTTPException 404 "Claim not found")
  | Some claim =>
      if negb (UserRole_eqb (User.role current_user) ADMIN
               || UserRole_eqb (User.role current_user) AGENT)
      then Raise (HTTPException 403 "Not authorized to update claims")
      else
        let claim :=
          apply_claim_update claim_update (User.id current_user) utcnow
            claim in
        Ok (set_claims db
              (update_first (fun c => Claim.id c =? claim_id)
                 (fun _ => claim) (claims db)),
            claim)
  end.

(** ** Payments *)

(** [POST /payments]; [reference] is what
    [generate_payment_reference()] returned. *)
Definition create_payment (registry : list relationship)
    (payment : PaymentCreate.t) (db : DB)
    (current_user : User.t) (reference : string) (utcnow : datetime)
    : result (DB * Payment.t) :=
  current_user <- get_current_active_user current_user ;;
  policy <- first_policy registry (PaymentCreate.policy_id payment) db ;;
  match policy with
  | None => Raise (HTTPException 404 "Policy not found")
  | Some policy =>
      if negb (Policy.user_id policy =? User.id current_user)
         && negb (UserRole_eqb (User.role current_user) ADMIN)
      then Raise (HTTPException 403
                    "Not authorized to make payment for this policy")
      else
        amount <- sqlite_real_not_null (PaymentCreate.amount payment) ;;
        let db_payment :=
          Payment.mk (next_id (map Payment.id (payments db)))
            reference
            (User.id current_user)
            (PaymentCreate.policy_id payment)
            amount
            utcnow
            (PaymentCreate.payment_method payment)
            (PaymentCreate.transaction_id payment)
            "completed"
            (PaymentCreate.description payment)
            utcnow in
        if existsb (fun q => (Payment.payment_reference q =? reference)%string)
             (payments db)
        then Raise IntegrityError
        else Ok (set_payments db (payments db ++ [db_payment]), db_payment)
  end.

(** [GET /payments]. *)
Definition get_payments (registry : list relationship) (skip limit : Z)
    (db : DB) (current_user : User.t) : result (list Payment.t) :=
  current_user <- get_current_active_user current_user ;;
  if UserRole_eqb (User.role current_user) ADMIN
  then all_rows registry skip limit (payments db)
  else all_rows registry skip limit
         (filter (fun q => Payment.user_id q =? User.id current_user)
            (payments db)).

(** ** Login *)

(** [authenticate_user]; [verify_password] is passlib's check of a
    plain password against a stored hash.  Python's [False] is [None]. *)
Definition authenticate_user (registry : list relationship)
    (verify_password : string -> string -> bool)
    (db : DB) (username password : string) : result (option User.t) :=
  _ <- configure_mappers registry ;;
  match user_by_username username db with
  | None => Ok None
  | Some user =>
      if negb (verify_password password (User.hashed_password user))
      then Ok None
      else Ok (Some user)
  end.

Definition MICROSECONDS_PER_DAY : Z := 86400000000.

(** [d + timedelta(minutes=n)]. *)
Definition add_minutes (d : datetime) (n : Z) : result datetime :=
  let us := microsecond_of_day d + n * 60000000 in
  let o := ordinal d + us / MICROSECONDS_PER_DAY in
  if (0 <? o) && (o <=? MAXORDINAL)
  then Ok (mkDatetime o (us mod MICROSECONDS_PER_DAY))
  else Raise OverflowError.

Definition ACCESS_TOKEN_EXPIRE_MINUTES : Z := 30.

(** The claims that [create_access_token] signs. *)
Record token_claims : Type := mkClaims {
  token_sub : string;
  token_exp : datetime
}.

(** [create_access_token(data={"sub": s}, expires_delta=...)]: the
    payload handed to [jwt.encode].  [expires_delta] is a number of
    minutes or [None]; a zero [timedelta] is falsy, like [None]. *)
Definition create_access_token (s : string) (expires_delta : option Z)
    (utcnow : datetime) : result token_claims :=
  expire <-
    match expires_delta with
    | Some m => if m =? 0 then add_minutes utcnow 15 else add_minutes utcnow m
    | None => add_minutes utcnow 15
    end ;;
  Ok (mkClaims s expire).

(** [POST /token]: the payload of the issued token and the user. *)
Definition login (registry : list relationship)
    (verify_password : string -> string -> bool) (db : DB)
    (username password : string) (utcnow : datetime)
    : result (token_claims * User.t) :=
  user <- authenticate_user registry verify_password db username password ;;
  match user with
  | None => Raise (HTTPException 401 "Incorrect username or password")
  | Some user =>
      access_token <-
        create_access_token (User.username user)
          (Some ACCESS_TOKEN_EXPIRE_MINUTES) utcnow ;;
      Ok (access_token, user)
  end.

(** ** Startup *)

(** The startup half of [lifespan], after [create_all]: the default
    admin is created unless a user named "admin" exists.  [hashed] is
    [get_password_hash("Admin@123456")].  [email] is UNIQUE: the commit
    of an address already in the table raises. *)
Definition create_default_admin (registry : list relationship) (db : DB)
    (hashed : string) (utcnow : datetime) : result (DB * unit) :=
  _ <- configure_mappers registry ;;
  match user_by_username "admin" db with
  | Some _ => Ok (db, tt)
  | None =>
      let admin_user :=
        User.mk (next_id (map User.id (users db)))
          "admin@acp-health.com" "admin" hashed
          (Some "System Administrator") None None ADMIN true utcnow utcnow in
      if existsb (fun u => (User.email u =? "admin@acp-health.com")%string)
           (users db)
      then Raise IntegrityError
      else Ok (set_users db (users db ++ [admin_user]), tt)
  end.

(** ** The service as a transition system

    A request carries the [sub] claim decoded from its bearer token
    ([None] when the token does not verify), and what the handler reads
    from its environment.  [Startup] is a start of the process, which
    runs [lifespan]. *)

Inductive request : Type :=
| Startup (hashed : string)
| Register (user : UserCreate.t) (hashed : string)
| CreatePlan (sub : option string) (plan : InsurancePlanCreate.t)
| DeactivateUser (sub : option string) (user_id : Z)
| CreatePolicy (sub : option string) (policy : PolicyCreate.t) (number : string)
| ActivatePolicy (sub : option string) (policy_id : Z)
| CreateClaim (sub : option string) (claim : ClaimCreate.t) (number : string)
| UpdateClaim (sub : option string) (claim_id : Z) (claim_update : ClaimUpdate.t)
| CreatePayment (sub : option string) (payment : PaymentCreate.t)
    (reference : string).

(** The store a request leaves behind: what it committed, or the store
    as it was when the handler raised. *)
Definition committed {A : Type} (db : DB) (r : result (DB * A)) : DB :=
  match r with
  | Ok (db', _) => db'
  | Raise _ => db
  end.

(** [lifespan] up to its [yield]: an exception of the admin's creation
    is logged and the service starts all the same. *)
Definition lifespan (registry : list relationship) (db : DB)
    (hashed : string) (utcnow : datetime) : DB :=
  committed db (create_default_admin registry db hashed utcnow).

Definition step (registry : list relationship) (db : DB)
    (req : datetime * request) : DB :=
  let utcnow := fst req in
  match snd req with
  | Startup hashed => lifespan registry db hashed utcnow
  | Register user hashed =>
      committed db (register registry user db hashed utcnow)
  | CreatePlan sub plan =>
      committed db
        (authenticated registry sub db
           (fun u => create_plan registry plan db u utcnow))
  | DeactivateUser sub user_id =>
      committed db
        (authenticated registry sub db
           (fun u => deactivate_user registry user_id db u utcnow))
  | CreatePolicy sub policy number =>
      committed db
        (authenticated registry sub db
           (fun u => create_policy registry policy db u number utcnow))
  | ActivatePolicy sub policy_id =>
      committed db
        (authenticated registry sub db
           (fun u => activate_policy registry policy_id db u utcnow))
  | CreateClaim sub claim number =>
      committed db
        (authenticated registry sub db
           (fun u => create_claim registry claim db u number utcnow))
  | UpdateClaim sub claim_id claim_update =>
      committed db
        (authenticated registry sub db
           (fun u => update_claim registry claim_id claim_update db u utcnow))
  | CreatePayment sub payment reference =>
      committed db
        (authenticated registry sub db
           (fun u => create_payment registry payment db u reference utcnow))
  end.

(** The store after a sequence of requests, oldest first. *)
Definition run (registry : list relationship) (db : DB)
    (trace : list (datetime * request)) : DB :=
  fold_left (step registry) trace db.

(** The token subject of a request; [Startup] and [Register] carry
    none. *)
Definition request_sub (r : request) : option (option string) :=
  match r with
  | Startup _ | Register _ _ => None
  | CreatePlan s _ | DeactivateUser s _ | CreatePolicy s _ _
  | ActivatePolicy s _ | CreateClaim s _ _ | UpdateClaim s _ _
  | CreatePayment s _ _ => Some s
  end.

(** The user a token subject stands for in the store. *)
Definition caller_of (sub : option string) (db : DB) : option User.t :=
  match sub with
  | Some username => user_by_username username db
  | None => None
  end.

(** ** Vocabulary of the properties *)

(** What activation may change of a policy row: [status] and
    [updated_at], nothing else. *)
Definition policy_frame (p p' : Policy.t) : Prop :=
  Policy.id p' = Policy.id p
  /\ Policy.policy_number p' = Policy.policy_number p
  /\ Policy.user_id p' = Policy.user_id p
  /\ Policy.plan_id p' = Policy.plan_id p
  /\ Policy.start_date p' = Policy.start_date p
  /\ Policy.end_date p' = Policy.end_date p
  /\ Policy.premium_amount p' = Policy.premium_amount p
  /\ Policy.payment_frequency p' = Policy.payment_frequency p
  /\ Policy.beneficiaries p' = Policy.beneficiaries p
  /\ Policy.created_at p' = Policy.created_at p.

(** The callers [update_claim] lets through: admins and agents. *)
Definition reviewer_role (u : User.t) : bool :=
  UserRole_eqb (User.role u) ADMIN || UserRole_eqb (User.role u) AGENT.

(** The errors of the handlers that the lifecycle rules name. *)
Definition policy_not_active : exception :=
  HTTPException 400 "Policy is not active".

Definition plan_not_found : exception :=
  HTTPException 404 "Insurance plan not found".

(** A REAL as the store holds it: neither a NaN nor a negative zero. *)
Definition stored_real (x : float) : Prop := sqlite_real x = Some x.

(** A nullable REAL column: NULL, or a REAL as the store holds it. *)
Definition nullable_real (o : option float) : Prop :=
  match o with
  | Some x => stored_real x
  | None => True
  end.

Definition plan_reals (p : InsurancePlan.t) : Prop :=
  stored_real (InsurancePlan.monthly_premium p)
  /\ stored_real (InsurancePlan.annual_premium p)
  /\ stored_real (InsurancePlan.coverage_amount p)
  /\ nullable_real (InsurancePlan.deductible p)
  /\ nullable_real (InsurancePlan.copay_percentage p)
  /\ nullable_real (InsurancePlan.max_out_of_pocket p).

(** ** What one request does to the store

    [effect db db'] lists the ways in which a request changes the
    store, with what the handler established before it committed. *)

Definition same_login (a b : User.t) : bool :=
  (User.email a =? User.email b)%string
  || (User.username a =? User.username b)%string.

Inductive effect (db : DB) : DB -> Prop :=
| effect_none : effect db db
| effect_register (u : User.t) :
    User.id u = next_id (map User.id (users db)) ->
    User.is_active u = true ->
    find (fun x => same_login x u) (users db) = None ->
    effect db (set_users db (users db ++ [u]))
| effect_deactivate (user_id : Z) (utcnow : datetime) (user : User.t) :
    user_by_id user_id db = Some user ->
    effect db
      (set_users db
         (update_first (fun u => User.id u =? user_id) (deactivated utcnow)
            (users db)))
| effect_create_plan (plan : InsurancePlan.t) :
    InsurancePlan.id plan = next_id (map InsurancePlan.id (insurance_plans db)) ->
    InsurancePlan.is_active plan = true ->
    plan_reals plan ->
    effect db (set_insurance_plans db (insurance_plans db ++ [plan]))
| effect_create_policy (caller : User.t) (plan : InsurancePlan.t)
    (p : Policy.t) :
    In caller (users db) ->
    Policy.id p = next_id (map Policy.id (policies db)) ->
    Policy.user_id p = User.id caller ->
    plan_by_id (Policy.plan_id p) db = Some plan ->
    Policy.status p = PENDING ->
    stored_real (Policy.premium_amount p) ->
    ~ In (Policy.policy_number p) (map Policy.policy_number (policies db)) ->
    effect db (set_policies db (policies db ++ [p]))
| effect_activate (policy_id : Z) (utcnow : datetime) (policy : Policy.t) :
    policy_by_id policy_id db = Some policy ->
    effect db
      (set_policies db
         (update_first (fun p => Policy.id p =? policy_id)
            (assign_status ACTIVE utcnow) (policies db)))
| effect_create_claim (caller : User.t) (policy : Policy.t) (c : Claim.t) :
    In caller (users db) ->
    Claim.id c = next_id (map Claim.id (claims db)) ->
    Claim.user_id c = User.id caller ->
    policy_by_id (Claim.policy_id c) db = Some policy ->
    Policy.status policy = ACTIVE ->
    Claim.status c = SUBMITTED ->
    stored_real (Claim.claim_amount c) ->
    Claim.approved_amount c = Some 0%float ->
    ~ In (Claim.claim_number c) (map Claim.claim_number (claims db)) ->
    effect db (set_claims db (claims db ++ [c]))
| effect_update_claim (claim_id : Z) (claim_update : ClaimUpdate.t)
    (caller : User.t) (utcnow : datetime) (claim : Claim.t) :
    In caller (users db) ->
    reviewer_role caller = true ->
    claim_by_id claim_id db = Some claim ->
    effect db
      (set_claims db
         (update_first (fun c => Claim.id c =? claim_id)
            (apply_claim_update claim_update (User.id caller) utcnow)
            (claims db)))
| effect_create_payment (caller : User.t) (policy : Policy.t)
    (q : Payment.t) :
    In caller (users db) ->
    Payment.id q = next_id (map Payment.id (payments db)) ->
    Payment.user_id q = User.id caller ->
    policy_by_id (Payment.policy_id q) db = Some policy ->
    stored_real (Payment.amount q) ->
    ~ In (Payment.payment_reference q)
        (map Payment.payment_reference (payments db)) ->
    effect db (set_payments db (payments db ++ [q])).

(** ** Predicates on stores and rows *)

(** Usernames and emails identify users. *)
Definition unique_logins (db : DB) : Prop :=
  NoDup (map User.username (users db)) /\ NoDup (map User.email (users db)).

(** [l'] is [l] with rows added at the end. *)
Definition extends {A : Type} (l l' : list A) : Prop :=
  exists added, l' = (l ++ added)%list.

(** What a request may change of a user row: [is_active], and only
    from true to false, and [updated_at]. *)
Definition user_frame (u u' : User.t) : Prop :=
  User.id u' = User.id u
  /\ User.email u' = User.email u
  /\ User.username u' = User.username u
  /\ User.hashed_password u' = User.hashed_password u
  /\ User.full_name u' = User.full_name u
  /\ User.phone u' = User.phone u
  /\ User.address u' = User.address u
  /\ User.role u' = User.role u
  /\ User.created_at u' = User.created_at u
  /\ (User.is_active u' = true -> User.is_active u = true).

(** What a request may change of a claim row: [status],
    [approved_amount], [notes], the review fields and [updated_at]. *)
Definition claim_frame (c c' : Claim.t) : Prop :=
  Claim.id c' = Claim.id c
  /\ Claim.claim_number c' = Claim.claim_number c
  /\ Claim.user_id c' = Claim.user_id c
  /\ Claim.policy_id c' = Claim.policy_id c
  /\ Claim.claim_date c' = Claim.claim_date c
  /\ Claim.service_date c' = Claim.service_date c
  /\ Claim.provider_name c' = Claim.provider_name c
  /\ Claim.diagnosis_code c' = Claim.diagnosis_code c
  /\ Claim.procedure_code c' = Claim.procedure_code c
  /\ Claim.claim_amount c' = Claim.claim_amount c
  /\ Claim.documents c' = Claim.documents c
  /\ Claim.created_at c' = Claim.created_at c.

(** The user who logs in as [username] exists and is not active. *)
Definition locked_out (username : string) (db : DB) : Prop :=
  exists u,
    user_by_username username db = Some u
    /\ User.is_active u = false.

(** Every claim on record is against a policy that is active. *)
Definition claims_on_active_policies (db : DB) : Prop :=
  forall c, In c (claims db) ->
    exists policy,
      policy_by_id (Claim.policy_id c) db = Some policy
      /\ Policy.status policy = ACTIVE.


(** [db'] keeps the rows of [db], in order, and adds rows at the end. *)
Definition append_only (db db' : DB) : Prop :=
  extends (insurance_plans db) (insurance_plans db')
  /\ extends (payments db) (payments db')
  /\ extends (map User.id (users db)) (map User.id (users db'))
  /\ extends (map Policy.id (policies db)) (map Policy.id (policies db'))
  /\ extends (map Claim.id (claims db)) (map Claim.id (claims db')).

(** Primary keys and the generated numbers identify rows. *)
Definition unique_keys (db : DB) : Prop :=
  NoDup (map User.id (users db))
  /\ NoDup (map InsurancePlan.id (insurance_plans db))
  /\ NoDup (map Policy.id (policies db))
  /\ NoDup (map Claim.id (claims db))
  /\ NoDup (map Payment.id (payments db))
  /\ NoDup (map Policy.policy_number (policies db))
  /\ NoDup (map Claim.claim_number (claims db))
  /\ NoDup (map Payment.payment_reference (payments db)).

(** Every REAL on record is one the store holds: no NaN (the store
    keeps NULL for it) and no negative zero (it gives back [0.0]). *)
Definition reals_stored (db : DB) : Prop :=
  (forall p, In p (insurance_plans db) -> plan_reals p)
  /\ (forall p, In p (policies db) -> stored_real (Policy.premium_amount p))
  /\ (forall c, In c (claims db) ->
        stored_real (Claim.claim_amount c)
        /\ nullable_real (Claim.approved_amount c))
  /\ (forall q, In q (payments db) -> stored_real (Payment.amount q)).

(** A start date [year-month-day] plus 365 days crosses a 29 February. *)
Definition crosses_leap_day (year month : Z) : bool :=
  if month <=? 2 then is_leap year else is_leap (year + 1).

(** The relationships with [User.claims] told which of the two foreign
    keys from [claims] to [users] it follows, as [Claim.user] is.  Not
    part of [main_system.py]: used only to show what the handlers'
    statements say of declarations that do configure. *)
Definition MAPPERS_WITH_FOREIGN_KEYS : list relationship :=
  map (fun r =>
         if (rel_class r =? "User")%string
            && (rel_attribute r =? "claims")%string
         then mkRel "User" "claims" "Claim" (Some [("claims", "user_id")])
         else r)
    MAPPERS.

(** The records that the response of a listing includes: the rows it
    returns, and none when it raises. *)
Definition listed {A : Type} (r : result (list A)) : list A :=
  match r with
  | Ok rows => rows
  | Raise _ => []
  end.

Definition credentials_exception : exception :=
  HTTPException 401 "Could not validate credentials".

(** What an authenticated endpoint answers under [MAPPERS]: 401 to a
    token that does not verify, the mapper failure to every other. *)
Definition declared_answer (sub : option string) : exception :=
  match sub with
  | None => credentials_exception
  | Some _ => InvalidRequestError
  end.

(** ** Sample data *)

Module Sample.

Definition t0 : datetime := mkDatetime (ymd2ord 2024 1 1) 0.
Definition t1 : datetime := mkDatetime (ymd2ord 2024 1 2) 36000000000.

Definition admin : User.t :=
  User.mk 1 "admin@acp-health.com" "admin" "$2b$12$admin"
    (Some "System Administrator") None None ADMIN true t0 t0.
Definition alice : User.t :=
  User.mk 2 "alice@example.com" "alice" "$2b$12$alice"
    None None None CUSTOMER true t0 t0.
Definition bob : User.t :=
  User.mk 3 "bob@example.com" "bob" "$2b$12$bob"
    None None None CUSTOMER true t0 t0.

Definition plan (active : bool) : InsurancePlan.t :=
  InsurancePlan.mk 1 "Basic Care" BASIC None 200%float 2200%float
    1000%float (Some 0%float) (Some 20%float) None None None active t0.

Definition policy (s : PolicyStatus) : Policy.t :=
  Policy.mk 1 "POL0000000001" 2 1 t0 (mkDatetime (ymd2ord 2024 12 31) 0)
    s 200%float "monthly" None t0 t0.

Definition claim (s : ClaimStatus) : Claim.t :=
  Claim.mk 1 "CLM0000000001" 2 1 t0 t0 "General Hospital" None None
    100%float (Some 0%float) s None None None None t0 t0.

Definition db_of (pl : InsurancePlan.t) (po : list Policy.t)
    (cl : list Claim.t) : DB :=
  mkDB [admin; alice; bob] [pl] po cl [].

Definition policy_request : PolicyCreate.t :=
  PolicyCreate.mk 1 (datetime_ymd 2024 1 1) "monthly" None.

Definition claim_request : ClaimCreate.t :=
  ClaimCreate.mk 1 t0 "General Hospital" None None 500%float None.

End Sample.

(** * Properties *)

(** ** Rows found and rows updated *)

Section Rows.

Context {A : Type}.
Variables sel key : A -> bool.

Lemma find_app_some (l extra : list A) (r : A) :
  find key l = Some r -> find key (l ++ extra) = Some r.
Proof.
  induction l as [|x l IH]; simpl; [discriminate|].
  destruct (key x); auto.
Qed.


(** Replacing the found row by a value is updating it by a function
    that yields this value on the found row. *)
Lemma update_first_found (g : A -> A) (l : list A) (r : A) :
  find sel l = Some r ->
  update_first sel (fun _ => g r) l = update_first sel g l.
Proof.
  induction l as [|x l IH]; simpl; [discriminate|].
  destruct (sel x) eqn:E.
  - intros [= ->]. reflexivity.
  - intros H. now rewrite IH.
Qed.

(** A lookup by [key] sees through an update that keeps the keys:
    it finds the same row, or its updated image. *)
Lemma find_update_first (upd : A -> A) (l : list A) (r : A) :
  (forall x, key (upd x) = key x) ->
  find key l = Some r ->
  find key (update_first sel upd l) = Some r
  \/ find key (update_first sel upd l) = Some (upd r).
Proof.
  intros Hk.
  induction l as [|x l IH]; simpl; [discriminate|].
  destruct (sel x) eqn:Es; simpl.
  - rewrite Hk. destruct (key x); intros H.
    + injection H as ->. now right.
    + now left.
  - destruct (key x); auto.
Qed.


End Rows.

(** ** Enumerations and dependencies *)

Lemma UserRole_eqb_eq (a b : UserRole) : UserRole_eqb a b = true <-> a = b.
Proof. destruct a, b; simpl; split; congruence. Qed.

Lemma PolicyStatus_eqb_eq (a b : PolicyStatus) :
  PolicyStatus_eqb a b = true <-> a = b.
Proof. destruct a, b; simpl; split; congruence. Qed.

Lemma ClaimStatus_eqb_eq (a b : ClaimStatus) :
  ClaimStatus_eqb a b = true <-> a = b.
Proof. destruct a, b; simpl; split; congruence. Qed.

Lemma get_current_active_user_ok (u : User.t) :
  User.is_active u = true -> get_current_active_user u = Ok u.
Proof. unfold get_current_active_user. now intros ->. Qed.

Lemma check_admin_ok (u : User.t) :
  User.is_active u = true -> User.role u = ADMIN -> check_admin u = Ok u.
Proof.
  intros Ha Hr. unfold check_admin.
  rewrite get_current_active_user_ok by assumption. simpl.
  now rewrite Hr.
Qed.

Lemma assign_status_status (s : PolicyStatus) (now : datetime) (p : Policy.t) :
  Policy.status (assign_status s now p) = s.
Proof.
  unfold assign_status.
  destruct (PolicyStatus_eqb (Policy.status p) s) eqn:E; [|reflexivity].
  now apply PolicyStatus_eqb_eq.
Qed.

Lemma assign_status_frame (s : PolicyStatus) (now : datetime) (p : Policy.t) :
  policy_frame p (assign_status s now p).
Proof.
  unfold assign_status, policy_frame.
  destruct (PolicyStatus_eqb (Policy.status p) s); simpl; tauto.
Qed.

Lemma policy_frame_refl (p : Policy.t) : policy_frame p p.
Proof. unfold policy_frame. tauto. Qed.

Lemma policy_frame_trans (p q r : Policy.t) :
  policy_frame p q -> policy_frame q r -> policy_frame p r.
Proof. unfold policy_frame. intuition congruence. Qed.

Lemma apply_claim_update_id
    (claim_update : ClaimUpdate.t) (reviewer : Z) (utcnow : datetime)
    (claim : Claim.t) :
  Claim.id (apply_claim_update claim_update reviewer utcnow claim)
  = Claim.id claim.
Proof.
  unfold apply_claim_update.
  now destruct (ClaimUpdate.status claim_update).
Qed.

(** ** Keys, fresh ids and lookups *)

Lemma fold_max_upper (ids : list Z) (x : Z) :
  In x ids -> x <= fold_right Z.max 0 ids.
Proof.
  induction ids as [|y ids IH]; simpl; [tauto|].
  intros [-> | H]; [lia|]. specialize (IH H). lia.
Qed.

Lemma next_id_fresh (ids : list Z) : ~ In (next_id ids) ids.
Proof.
  intros H. apply fold_max_upper in H. unfold next_id in H. lia.
Qed.

Lemma existsb_false_not_in {A : Type} (key : A -> string) (k : string)
    (l : list A) :
  existsb (fun x => (key x =? k)%string) l = false -> ~ In k (map key l).
Proof.
  intros He Hin. apply in_map_iff in Hin. destruct Hin as (x & <- & Hx).
  assert (Ht : existsb (fun y => (key y =? key x)%string) l = true).
  { apply existsb_exists. exists x. split; [exact Hx | apply String.eqb_refl]. }
  congruence.
Qed.

Lemma map_update_first {A B : Type} (f : A -> B) (sel : A -> bool)
    (upd : A -> A) (l : list A) :
  (forall x, f (upd x) = f x) ->
  map f (update_first sel upd l) = map f l.
Proof.
  intros Hf. induction l as [|x l IH]; simpl; [reflexivity|].
  destruct (sel x); simpl; [now rewrite Hf | now rewrite IH].
Qed.

Lemma in_update_first {A : Type} (sel : A -> bool) (upd : A -> A)
    (l : list A) (y : A) :
  In y (update_first sel upd l) -> In y l \/ exists x, In x l /\ y = upd x.
Proof.
  induction l as [|x l IH]; simpl; [tauto|].
  destruct (sel x); simpl.
  - intros [<- | H]; [right; exists x; auto | auto].
  - intros [<- | H]; [auto|].
    destruct (IH H) as [H' | (z & Hz & ->)]; [auto|].
    right. exists z. auto.
Qed.

Lemma find_fresh_last {A : Type} (key : A -> Z) (l : list A) (x : A) :
  ~ In (key x) (map key l) ->
  find (fun y => key y =? key x) (l ++ [x]) = Some x.
Proof.
  induction l as [|y l IH]; simpl; intros Hn.
  - now rewrite Z.eqb_refl.
  - destruct (key y =? key x) eqn:E.
    + apply Z.eqb_eq in E. exfalso. apply Hn. now left.
    + apply IH. intros H. apply Hn. now right.
Qed.

Lemma find_unique {A : Type} (key : A -> Z) (l : list A) (x : A) :
  NoDup (map key l) -> In x l ->
  find (fun y => key y =? key x) l = Some x.
Proof.
  induction l as [|y l IH]; simpl; [tauto|].
  intros Hnd Hin. inversion Hnd as [|? ? Hy Hl]; subst.
  destruct Hin as [-> | Hin]; [now rewrite Z.eqb_refl|].
  destruct (key y =? key x) eqn:E; [|now apply IH].
  apply Z.eqb_eq in E. exfalso. apply Hy. rewrite E. now apply in_map.
Qed.

Lemma find_unique_string {A : Type} (key : A -> string) (l : list A) (x : A) :
  NoDup (map key l) -> In x l ->
  find (fun y => (key y =? key x)%string) l = Some x.
Proof.
  induction l as [|y l IH]; simpl; [tauto|].
  intros Hnd Hin. inversion Hnd as [|? ? Hy Hl]; subst.
  destruct Hin as [-> | Hin]; [now rewrite String.eqb_refl|].
  destruct (key y =? key x)%string eqn:E; [|now apply IH].
  apply String.eqb_eq in E. exfalso. apply Hy. rewrite E. now apply in_map.
Qed.

Lemma NoDup_snoc {A : Type} (l : list A) (x : A) :
  NoDup l -> ~ In x l -> NoDup (l ++ [x]).
Proof.
  intros Hl Hx. apply NoDup_app.
  - exact Hl.
  - repeat constructor. simpl. tauto.
  - intros y Hy [<- | []]. contradiction.
Qed.

Lemma find_app_none {A : Type} (key : A -> bool) (l extra : list A) :
  find key l = None -> find key (l ++ extra) = find key extra.
Proof.
  induction l as [|x l IH]; simpl; [reflexivity|].
  destruct (key x); [discriminate | exact IH].
Qed.

Lemma find_all_false {A : Type} (key : A -> bool) (l : list A) :
  (forall x, In x l -> key x = false) -> find key l = None.
Proof.
  induction l as [|x l IH]; simpl; intros H; [reflexivity|].
  rewrite (H x) by now left. apply IH. intros y Hy. apply H. now right.
Qed.

Lemma find_exists {A : Type} (key : A -> bool) (l : list A) (x : A) :
  In x l -> key x = true -> exists y, find key l = Some y.
Proof.
  intros Hin Hk. destruct (find key l) as [y|] eqn:Hf; [eauto|].
  rewrite (find_none _ _ Hf x Hin) in Hk. discriminate.
Qed.

Lemma not_in_existsb_false {A : Type} (key : A -> string) (k : string)
    (l : list A) :
  ~ In k (map key l) -> existsb (fun x => (key x =? k)%string) l = false.
Proof.
  intros Hn. destruct (existsb _ l) eqn:E; [|reflexivity].
  apply existsb_exists in E. destruct E as (x & Hx & Hk).
  apply String.eqb_eq in Hk. exfalso. apply Hn. subst. now apply in_map.
Qed.

Lemma in_update_first_found {A : Type} (sel : A -> bool) (upd : A -> A)
    (l : list A) (r : A) :
  find sel l = Some r -> In (upd r) (update_first sel upd l).
Proof.
  induction l as [|x l IH]; simpl; [discriminate|].
  destruct (sel x).
  - intros [= ->]. now left.
  - intros H. right. now apply IH.
Qed.

(** ** The layer's checks *)

Lemma sqlite_int_inv (n m : Z) : sqlite_int n = Ok m -> m = n.
Proof.
  unfold sqlite_int. destruct (_ && _); [|discriminate]. now intros [= <-].
Qed.

Lemma sqlite_real_stored (x y : float) :
  sqlite_real x = Some y -> stored_real y.
Proof.
  unfold stored_real, sqlite_real.
  destruct (PrimFloat.classify x) eqn:E; intros [= <-];
    try (rewrite E; reflexivity); reflexivity.
Qed.


Lemma sqlite_real_not_null_inv (x y : float) :
  sqlite_real_not_null x = Ok y -> sqlite_real x = Some y.
Proof.
  unfold sqlite_real_not_null. destruct (sqlite_real x); [|discriminate].
  now intros [= <-].
Qed.

Lemma in_skipn {A : Type} (n : nat) (l : list A) (x : A) :
  In x (skipn n l) -> In x l.
Proof.
  intros H. rewrite <- (firstn_skipn n l). apply in_or_app. now right.
Qed.

Lemma in_firstn {A : Type} (n : nat) (l : list A) (x : A) :
  In x (firstn n l) -> In x l.
Proof.
  intros H. rewrite <- (firstn_skipn n l). apply in_or_app. now left.
Qed.

Lemma offset_limit_incl {A : Type} (skip limit : Z) (rows l : list A)
    (x : A) :
  offset_limit skip limit rows = Ok l -> In x l -> In x rows.
Proof.
  unfold offset_limit.
  destruct (sqlite_int skip) as [s|]; simpl; [|discriminate].
  destruct (sqlite_int limit) as [m|]; simpl; [|discriminate].
  intros [= <-]. destruct (m <? 0); intros H.
  - exact (in_skipn _ _ _ H).
  - exact (in_skipn _ _ _ (in_firstn _ _ _ H)).
Qed.

Lemma listed_all_rows {A : Type} registry (skip limit : Z) (rows : list A)
    (x : A) :
  In x (listed (all_rows registry skip limit rows)) -> In x rows.
Proof.
  unfold all_rows.
  destruct (configure_mappers registry) as [[]|]; simpl; [|tauto].
  destruct (offset_limit skip limit rows) as [l|] eqn:E; simpl; [|tauto].
  exact (offset_limit_incl _ _ _ _ _ E).
Qed.

Lemma first_user_inv registry user_id db r :
  first_user registry user_id db = Ok r ->
  configure_mappers registry = Ok tt /\ r = user_by_id user_id db.
Proof.
  unfold first_user. destruct (configure_mappers registry) as [[]|];
    simpl; [|discriminate].
  destruct (sqlite_int user_id) as [m|] eqn:E; simpl; [|discriminate].
  apply sqlite_int_inv in E. subst. now intros [= <-].
Qed.

Lemma first_plan_inv registry plan_id db r :
  first_plan registry plan_id db = Ok r ->
  configure_mappers registry = Ok tt /\ r = plan_by_id plan_id db.
Proof.
  unfold first_plan. destruct (configure_mappers registry) as [[]|];
    simpl; [|discriminate].
  destruct (sqlite_int plan_id) as [m|] eqn:E; simpl; [|discriminate].
  apply sqlite_int_inv in E. subst. now intros [= <-].
Qed.

Lemma first_policy_inv registry policy_id db r :
  first_policy registry policy_id db = Ok r ->
  configure_mappers registry = Ok tt /\ r = policy_by_id policy_id db.
Proof.
  unfold first_policy. destruct (configure_mappers registry) as [[]|];
    simpl; [|discriminate].
  destruct (sqlite_int policy_id) as [m|] eqn:E; simpl; [|discriminate].
  apply sqlite_int_inv in E. subst. now intros [= <-].
Qed.

Lemma first_claim_inv registry claim_id db r :
  first_claim registry claim_id db = Ok r ->
  configure_mappers registry = Ok tt /\ r = claim_by_id claim_id db.
Proof.
  unfold first_claim. destruct (configure_mappers registry) as [[]|];
    simpl; [|discriminate].
  destruct (sqlite_int claim_id) as [m|] eqn:E; simpl; [|discriminate].
  apply sqlite_int_inv in E. subst. now intros [= <-].
Qed.

Lemma get_current_user_inv registry (sub : option string) (db : DB)
    (u : User.t) :
  get_current_user registry sub db = Ok u ->
  caller_of sub db = Some u
  /\ In u (users db)
  /\ sub = Some (User.username u).
Proof.
  unfold get_current_user, caller_of. destruct sub as [n|]; [|discriminate].
  destruct (configure_mappers registry) as [[]|]; simpl; [|discriminate].
  unfold user_by_username.
  destruct (find _ _) as [x|] eqn:Hf; [|discriminate].
  intros [= ->]. split; [reflexivity|].
  apply find_some in Hf. destruct Hf as [Hin Hn].
  apply String.eqb_eq in Hn. subst. auto.
Qed.

Lemma committed_authenticated {A : Type} registry sub (db : DB)
    (h : User.t -> result (DB * A)) :
  committed db (authenticated registry sub db h)
  = match get_current_user registry sub db with
    | Ok u => committed db (h u)
    | Raise _ => db
    end.
Proof.
  unfold authenticated. now destruct (get_current_user registry sub db).
Qed.

(** ** What a handler has established when it returns *)

Lemma register_inv registry user db hashed utcnow db' u :
  register registry user db hashed utcnow = Ok (db', u) ->
  find (fun x => same_login x u) (users db) = None
  /\ User.id u = next_id (map User.id (users db))
  /\ User.email u = UserCreate.email user
  /\ User.username u = UserCreate.username user
  /\ User.role u = UserCreate.role user
  /\ User.is_active u = true
  /\ db' = set_users db (users db ++ [u]).
Proof.
  unfold register.
  destruct (configure_mappers registry) as [[]|]; simpl; [|discriminate].
  destruct (find _ (users db)) eqn:Hf; [discriminate|].
  intros [= <- <-]. repeat split. exact Hf.
Qed.

Lemma create_plan_inv registry plan db u utcnow db' r :
  create_plan registry plan db u utcnow = Ok (db', r) ->
  InsurancePlan.id r = next_id (map InsurancePlan.id (insurance_plans db))
  /\ InsurancePlan.is_active r = true
  /\ db' = set_insurance_plans db (insurance_plans db ++ [r]).
Proof.
  unfold create_plan, check_admin, get_current_active_user.
  destruct (User.is_active u); simpl; [|discriminate].
  destruct (negb _); simpl; [discriminate|].
  destruct (configure_mappers registry) as [[]|]; simpl; [|discriminate].
  destruct (sqlite_real_not_null _); simpl; [|discriminate].
  destruct (sqlite_real_not_null _); simpl; [|discriminate].
  destruct (sqlite_real_not_null _); simpl; [|discriminate].
  intros [= <- <-]. repeat split.
Qed.

Lemma deactivate_user_inv registry user_id db current_user utcnow db' u' :
  deactivate_user registry user_id db current_user utcnow = Ok (db', u') ->
  User.is_active current_user = true
  /\ User.role current_user = ADMIN
  /\ exists user,
       user_by_id user_id db = Some user
       /\ u' = deactivated utcnow user
       /\ db' = set_users db
                  (update_first (fun x => User.id x =? user_id)
                     (deactivated utcnow) (users db)).
Proof.
  unfold deactivate_user, check_admin, get_current_active_user.
  destruct (User.is_active current_user); simpl; [|discriminate].
  destruct (UserRole_eqb (User.role current_user) ADMIN) eqn:Er; simpl;
    [|discriminate].
  apply UserRole_eqb_eq in Er.
  destruct (first_user registry user_id db) as [o|] eqn:Hq; simpl;
    [|discriminate].
  apply first_user_inv in Hq. destruct Hq as [_ ->].
  destruct (user_by_id user_id db) as [user|] eqn:Hf; [|discriminate].
  intros [= <- <-]. split; [reflexivity|]. split; [exact Er|].
  exists user. split; [reflexivity|]. split; [reflexivity|].
  unfold user_by_id in Hf.
  now rewrite (update_first_found _ (deactivated utcnow) _ _ Hf).
Qed.

Lemma create_policy_inv registry policy db u number utcnow db' p :
  create_policy registry policy db u number utcnow = Ok (db', p) ->
  User.is_active u = true
  /\ (exists plan,
        plan_by_id (PolicyCreate.plan_id policy) db = Some plan
        /\ sqlite_real
             (if (PolicyCreate.payment_frequency policy =? "monthly")%string
              then InsurancePlan.monthly_premium plan
              else InsurancePlan.annual_premium plan)
           = Some (Policy.premium_amount p))
  /\ Policy.id p = next_id (map Policy.id (policies db))
  /\ Policy.policy_number p = number
  /\ Policy.user_id p = User.id u
  /\ Policy.plan_id p = PolicyCreate.plan_id policy
  /\ Policy.start_date p = PolicyCreate.start_date policy
  /\ add_days (PolicyCreate.start_date policy) 365 = Ok (Policy.end_date p)
  /\ Policy.status p = PENDING
  /\ Policy.payment_frequency p = PolicyCreate.payment_frequency policy
  /\ ~ In number (map Policy.policy_number (policies db))
  /\ db' = set_policies db (policies db ++ [p]).
Proof.
  unfold create_policy, get_current_active_user.
  destruct (User.is_active u); simpl; [|discriminate].
  destruct (first_plan registry _ db) as [o|] eqn:Hq; simpl; [|discriminate].
  apply first_plan_inv in Hq. destruct Hq as [_ ->].
  destruct (plan_by_id _ db) as [plan|] eqn:Hp; [|discriminate].
  destruct (add_days _ _) as [e|] eqn:He; simpl; [|discriminate].
  destruct (sqlite_real_not_null _) as [x|] eqn:Hx; simpl; [|discriminate].
  apply sqlite_real_not_null_inv in Hx.
  destruct (existsb _ _) eqn:Hn; [discriminate|].
  intros [= <- <-]. simpl.
  split; [reflexivity|]. split; [exists plan; auto|].
  repeat split. now apply existsb_false_not_in.
Qed.

Lemma activate_policy_inv registry policy_id db u utcnow db' p' :
  activate_policy registry policy_id db u utcnow = Ok (db', p') ->
  User.is_active u = true
  /\ User.role u = ADMIN
  /\ exists policy,
       policy_by_id policy_id db = Some policy
       /\ p' = assign_status ACTIVE utcnow policy
       /\ db' = set_policies db
                  (update_first (fun x => Policy.id x =? policy_id)
                     (assign_status ACTIVE utcnow) (policies db)).
Proof.
  unfold activate_policy, check_admin, get_current_active_user.
  destruct (User.is_active u); simpl; [|discriminate].
  destruct (UserRole_eqb (User.role u) ADMIN) eqn:Er; simpl; [|discriminate].
  apply UserRole_eqb_eq in Er.
  destruct (first_policy registry policy_id db) as [o|] eqn:Hq; simpl;
    [|discriminate].
  apply first_policy_inv in Hq. destruct Hq as [_ ->].
  destruct (policy_by_id policy_id db) as [policy|] eqn:Hf; [|discriminate].
  intros [= <- <-]. split; [reflexivity|]. split; [exact Er|].
  exists policy. split; [reflexivity|]. split; [reflexivity|].
  unfold policy_by_id in Hf.
  now rewrite (update_first_found _ (assign_status ACTIVE utcnow) _ _ Hf).
Qed.

Lemma create_claim_inv registry claim db u number utcnow db' c :
  create_claim registry claim db u number utcnow = Ok (db', c) ->
  User.is_active u = true
  /\ (exists policy,
        policy_by_id (ClaimCreate.policy_id claim) db = Some policy
        /\ Policy.status policy = ACTIVE
        /\ (Policy.user_id policy = User.id u \/ User.role u = ADMIN))
  /\ Claim.id c = next_id (map Claim.id (claims db))
  /\ Claim.claim_number c = number
  /\ Claim.user_id c = User.id u
  /\ Claim.policy_id c = ClaimCreate.policy_id claim
  /\ Claim.status c = SUBMITTED
  /\ sqlite_real (ClaimCreate.claim_amount claim) = Some (Claim.claim_amount c)
  /\ ~ In number (map Claim.claim_number (claims db))
  /\ db' = set_claims db (claims db ++ [c]).
Proof.
  unfold create_claim, get_current_active_user.
  destruct (User.is_active u); simpl; [|discriminate].
  destruct (first_policy registry _ db) as [o|] eqn:Hq; simpl; [|discriminate].
  apply first_policy_inv in Hq. destruct Hq as [_ ->].
  destruct (policy_by_id _ db) as [policy|] eqn:Hp; [|discriminate].
  destruct (negb (Policy.user_id policy =? User.id u)
            && negb (UserRole_eqb (User.role u) ADMIN)) eqn:Hown;
    [discriminate|].
  destruct (PolicyStatus_eqb (Policy.status policy) ACTIVE) eqn:Hs; simpl;
    [|discriminate].
  apply PolicyStatus_eqb_eq in Hs.
  destruct (sqlite_real_not_null _) as [x|] eqn:Hx; simpl; [|discriminate].
  apply sqlite_real_not_null_inv in Hx.
  destruct (existsb _ _) eqn:Hn; [discriminate|].
  intros [= <- <-]. simpl.
  split; [reflexivity|]. split.
  { exists policy. split; [reflexivity|]. split; [exact Hs|].
    destruct (Policy.user_id policy =? User.id u) eqn:Eo.
    - left. now apply Z.eqb_eq.
    - right. simpl in Hown. apply negb_false_iff in Hown.
      now apply UserRole_eqb_eq. }
  repeat split; try assumption. now apply existsb_false_not_in.
Qed.

Lemma update_claim_inv registry claim_id claim_update db u utcnow db' c' :
  update_claim registry claim_id claim_update db u utcnow = Ok (db', c') ->
  User.is_active u = true
  /\ reviewer_role u = true
  /\ exists claim,
       claim_by_id claim_id db = Some claim
       /\ c' = apply_claim_update claim_update (User.id u) utcnow claim
       /\ db' = set_claims db
                  (update_first (fun x => Claim.id x =? claim_id)
                     (apply_claim_update claim_update (User.id u) utcnow)
                     (claims db)).
Proof.
  unfold update_claim, get_current_active_user, reviewer_role.
  destruct (User.is_active u); simpl; [|discriminate].
  destruct (first_claim registry claim_id db) as [o|] eqn:Hq; simpl;
    [|discriminate].
  apply first_claim_inv in Hq. destruct Hq as [_ ->].
  destruct (claim_by_id claim_id db) as [claim|] eqn:Hf; [|discriminate].
  destruct (UserRole_eqb (User.role u) ADMIN
            || UserRole_eqb (User.role u) AGENT) eqn:Hr; simpl;
    [|discriminate].
  intros [= <- <-]. split; [reflexivity|]. split; [reflexivity|].
  exists claim. split; [reflexivity|]. split; [reflexivity|].
  unfold claim_by_id in Hf.
  now rewrite (update_first_found _
                 (apply_claim_update claim_update (User.id u) utcnow) _ _ Hf).
Qed.

Lemma create_payment_inv registry payment db u reference utcnow db' q :
  create_payment registry payment db u reference utcnow = Ok (db', q) ->
  User.is_active u = true
  /\ (exists policy,
        policy_by_id (PaymentCreate.policy_id payment) db = Some policy
        /\ (Policy.user_id policy = User.id u \/ User.role u = ADMIN))
  /\ Payment.id q = next_id (map Payment.id (payments db))
  /\ Payment.payment_reference q = reference
  /\ Payment.user_id q = User.id u
  /\ Payment.policy_id q = PaymentCreate.policy_id payment
  /\ ~ In reference (map Payment.payment_reference (payments db))
  /\ db' = set_payments db (payments db ++ [q]).
Proof.
  unfold create_payment, get_current_active_user.
  destruct (User.is_active u); simpl; [|discriminate].
  destruct (first_policy registry _ db) as [o|] eqn:Hq; simpl; [|discriminate].
  apply first_policy_inv in Hq. destruct Hq as [_ ->].
  destruct (policy_by_id _ db) as [policy|] eqn:Hp; [|discriminate].
  destruct (negb (Policy.user_id policy =? User.id u)
            && negb (UserRole_eqb (User.role u) ADMIN)) eqn:Hown;
    [discriminate|].
  destruct (sqlite_real_not_null _) as [x|] eqn:Hx; simpl; [|discriminate].
  destruct (existsb _ _) eqn:Hn; [discriminate|].
  intros [= <- <-]. simpl.
  split; [reflexivity|]. split.
  { exists policy. split; [reflexivity|].
    destruct (Policy.user_id policy =? User.id u) eqn:Eo.
    - left. now apply Z.eqb_eq.
    - right. simpl in Hown. apply negb_false_iff in Hown.
      now apply UserRole_eqb_eq. }
  repeat split. now apply existsb_false_not_in.
Qed.

(** The REALs of the rows the handlers insert are as the store gives
    them back. *)
Lemma create_plan_reals registry plan db u utcnow db' r :
  create_plan registry plan db u utcnow = Ok (db', r) -> plan_reals r.
Proof.
  unfold create_plan, check_admin, get_current_active_user.
  destruct (User.is_active u); simpl; [|discriminate].
  destruct (negb _); simpl; [discriminate|].
  destruct (configure_mappers registry) as [[]|]; simpl; [|discriminate].
  destruct (sqlite_real_not_null (InsurancePlanCreate.monthly_premium plan))
    as [a|] eqn:Ha; simpl; [|discriminate].
  destruct (sqlite_real_not_null (InsurancePlanCreate.annual_premium plan))
    as [b|] eqn:Hb; simpl; [|discriminate].
  destruct (sqlite_real_not_null (InsurancePlanCreate.coverage_amount plan))
    as [c|] eqn:Hc; simpl; [|discriminate].
  apply sqlite_real_not_null_inv, sqlite_real_stored in Ha.
  apply sqlite_real_not_null_inv, sqlite_real_stored in Hb.
  apply sqlite_real_not_null_inv, sqlite_real_stored in Hc.
  intros [= _ <-]. unfold plan_reals, nullable_real. simpl.
  repeat split; try assumption.
  - destruct (sqlite_real (InsurancePlanCreate.deductible plan)) eqn:E;
      [exact (sqlite_real_stored _ _ E) | exact I].
  - destruct (sqlite_real (InsurancePlanCreate.copay_percentage plan)) eqn:E;
      [exact (sqlite_real_stored _ _ E) | exact I].
  - destruct (InsurancePlanCreate.max_out_of_pocket plan) as [x|]; [|exact I].
    destruct (sqlite_real x) eqn:E;
      [exact (sqlite_real_stored _ _ E) | exact I].
Qed.

Lemma create_claim_approved_amount registry claim db u number utcnow db' c :
  create_claim registry claim db u number utcnow = Ok (db', c) ->
  Claim.approved_amount c = Some 0%float.
Proof.
  unfold create_claim, get_current_active_user.
  destruct (User.is_active u); simpl; [|discriminate].
  destruct (first_policy registry _ db) as [[policy|]|]; simpl;
    try discriminate.
  destruct (_ && _); [discriminate|].
  destruct (negb _); [discriminate|].
  destruct (sqlite_real_not_null _); simpl; [|discriminate].
  destruct (existsb _ _); [discriminate|].
  now intros [= _ <-].
Qed.

Lemma create_payment_amount registry payment db u reference utcnow db' q :
  create_payment registry payment db u reference utcnow = Ok (db', q) ->
  sqlite_real (PaymentCreate.amount payment) = Some (Payment.amount q)
  /\ Payment.status q = "completed".
Proof.
  unfold create_payment, get_current_active_user.
  destruct (User.is_active u); simpl; [|discriminate].
  destruct (first_policy registry _ db) as [[policy|]|]; simpl;
    try discriminate.
  destruct (_ && _); [discriminate|].
  destruct (sqlite_real_not_null _) as [x|] eqn:Hx; simpl; [|discriminate].
  apply sqlite_real_not_null_inv in Hx.
  destruct (existsb _ _); [discriminate|].
  intros [= _ <-]. simpl. now split.
Qed.

Lemma create_default_admin_inv registry db hashed utcnow db' :
  create_default_admin registry db hashed utcnow = Ok (db', tt) ->
  configure_mappers registry = Ok tt
  /\ (db' = db
      \/ exists u,
           user_by_username "admin" db = None
           /\ find (fun x => same_login x u) (users db) = None
           /\ User.id u = next_id (map User.id (users db))
           /\ User.email u = "admin@acp-health.com"
           /\ User.username u = "admin"
           /\ User.hashed_password u = hashed
           /\ User.role u = ADMIN
           /\ User.is_active u = true
           /\ db' = set_users db (users db ++ [u])).
Proof.
  unfold create_default_admin.
  destruct (configure_mappers registry) as [[]|]; simpl; [|discriminate].
  intros H. split; [reflexivity|]. revert H. unfold user_by_username in *.
  destruct (find _ (users db)) as [x|] eqn:Hn; [intros [= <-]; now left|].
  destruct (existsb _ _) eqn:He; [discriminate|].
  intros [= <-]. right. eexists (User.mk _ _ _ _ _ _ _ _ _ _ _).
  split; [reflexivity|]. split; [|repeat split].
  apply find_all_false. intros x Hx. unfold same_login. simpl.
  apply orb_false_iff. split.
  - destruct (User.email x =? "admin@acp-health.com")%string eqn:E; [|easy].
    assert (existsb (fun u => (User.email u =? "admin@acp-health.com")%string)
              (users db) = true) as Hex
      by (apply existsb_exists; now exists x).
    congruence.
  - exact (find_none _ _ Hn x Hx).
Qed.

Lemma lifespan_effect registry db hashed utcnow :
  effect db (lifespan registry db hashed utcnow).
Proof.
  unfold lifespan.
  destruct (create_default_admin registry db hashed utcnow) as [[db' []]|]
    eqn:E; simpl; [|constructor].
  destruct (create_default_admin_inv _ _ _ _ _ E)
    as (_ & [-> | (u & _ & Hf & Hid & _ & _ & _ & _ & Ha & ->)]);
    [constructor|].
  now apply effect_register.
Qed.

(** ** Every request is one of the listed effects *)

Lemma register_effect registry user db hashed utcnow :
  effect db (committed db (register registry user db hashed utcnow)).
Proof.
  destruct (register registry user db hashed utcnow) as [[db' u]|] eqn:E;
    simpl; [|constructor].
  destruct (register_inv _ _ _ _ _ _ _ E) as (Hf & Hid & _ & _ & _ & Ha & ->).
  now apply effect_register.
Qed.

Lemma create_plan_effect registry plan db u utcnow :
  effect db (committed db (create_plan registry plan db u utcnow)).
Proof.
  destruct (create_plan registry plan db u utcnow) as [[db' r]|] eqn:E;
    simpl; [|constructor].
  pose proof (create_plan_reals _ _ _ _ _ _ _ E) as Hr.
  destruct (create_plan_inv _ _ _ _ _ _ _ E) as (Hid & Ha & ->).
  now apply effect_create_plan.
Qed.

Lemma deactivate_user_effect registry user_id db u utcnow :
  effect db (committed db (deactivate_user registry user_id db u utcnow)).
Proof.
  destruct (deactivate_user registry user_id db u utcnow) as [[db' r]|] eqn:E;
    simpl; [|constructor].
  destruct (deactivate_user_inv _ _ _ _ _ _ _ E)
    as (_ & _ & user & Hf & _ & ->).
  now apply effect_deactivate with (user := user).
Qed.

Lemma create_policy_effect registry policy db u number utcnow :
  In u (users db) ->
  effect db (committed db (create_policy registry policy db u number utcnow)).
Proof.
  intros Hu.
  destruct (create_policy registry policy db u number utcnow)
    as [[db' p]|] eqn:E; simpl; [|constructor].
  destruct (create_policy_inv _ _ _ _ _ _ _ _ E)
    as (_ & (plan & Hp & Hprem) & Hid & Hnum & Huid & Hpid & _ & _ & Hst & _
        & Hfresh & ->).
  apply sqlite_real_stored in Hprem.
  apply effect_create_policy with (caller := u) (plan := plan); auto.
  - now rewrite Hpid.
  - now rewrite Hnum.
Qed.

Lemma activate_policy_effect registry policy_id db u utcnow :
  effect db (committed db (activate_policy registry policy_id db u utcnow)).
Proof.
  destruct (activate_policy registry policy_id db u utcnow)
    as [[db' p]|] eqn:E; simpl; [|constructor].
  destruct (activate_policy_inv _ _ _ _ _ _ _ E)
    as (_ & _ & policy & Hf & _ & ->).
  now apply effect_activate with (policy := policy).
Qed.

Lemma create_claim_effect registry claim db u number utcnow :
  In u (users db) ->
  effect db (committed db (create_claim registry claim db u number utcnow)).
Proof.
  intros Hu.
  destruct (create_claim registry claim db u number utcnow)
    as [[db' c]|] eqn:E; simpl; [|constructor].
  pose proof (create_claim_approved_amount _ _ _ _ _ _ _ _ E) as Happ.
  destruct (create_claim_inv _ _ _ _ _ _ _ _ E)
    as (_ & (policy & Hp & Hs & _) & Hid & Hnum & Huid & Hpid & Hst & Hamt
        & Hfresh & ->).
  apply sqlite_real_stored in Hamt.
  apply effect_create_claim with (caller := u) (policy := policy); auto.
  - now rewrite Hpid.
  - now rewrite Hnum.
Qed.

Lemma update_claim_effect registry claim_id claim_update db u utcnow :
  In u (users db) ->
  effect db
    (committed db (update_claim registry claim_id claim_update db u utcnow)).
Proof.
  intros Hu.
  destruct (update_claim registry claim_id claim_update db u utcnow)
    as [[db' c]|] eqn:E; simpl; [|constructor].
  destruct (update_claim_inv _ _ _ _ _ _ _ _ E)
    as (_ & Hr & claim & Hf & _ & ->).
  now apply effect_update_claim with (claim := claim).
Qed.

Lemma create_payment_effect registry payment db u reference utcnow :
  In u (users db) ->
  effect db
    (committed db (create_payment registry payment db u reference utcnow)).
Proof.
  intros Hu.
  destruct (create_payment registry payment db u reference utcnow)
    as [[db' q]|] eqn:E; simpl; [|constructor].
  destruct (create_payment_amount _ _ _ _ _ _ _ _ E) as [Hamt _].
  apply sqlite_real_stored in Hamt.
  destruct (create_payment_inv _ _ _ _ _ _ _ _ E)
    as (_ & (policy & Hp & _) & Hid & Href & Huid & Hpid & Hfresh & ->).
  apply effect_create_payment with (caller := u) (policy := policy); auto.
  - now rewrite Hpid.
  - now rewrite Href.
Qed.

Lemma step_effect registry (db : DB) (req : datetime * request) :
  effect db (step registry db req).
Proof.
  destruct req as [utcnow r]. unfold step. simpl.
  destruct r; rewrite ?committed_authenticated;
    try (destruct (get_current_user registry sub db) as [u|] eqn:Hu;
         [apply get_current_user_inv in Hu; destruct Hu as (_ & Hu & _)
         |constructor]).
  - apply lifespan_effect.
  - apply register_effect.
  - apply create_plan_effect.
  - apply deactivate_user_effect.
  - now apply create_policy_effect.
  - apply activate_policy_effect.
  - now apply create_claim_effect.
  - now apply update_claim_effect.
  - now apply create_payment_effect.
Qed.

(** An invariant kept by every effect is kept by every trace, whatever
    the relationships declared. *)
Lemma run_invariant (P : DB -> Prop) :
  (forall db db', effect db db' -> P db -> P db') ->
  forall registry trace db, P db -> P (run registry db trace).
Proof.
  intros Hstep registry. unfold run.
  induction trace as [|req trace IH]; intros db Hdb; simpl; [exact Hdb|].
  apply IH. eapply Hstep; [apply step_effect | exact Hdb].
Qed.

(** ** The relationships as declared do not configure *)

(** [claims] has two foreign keys to [users], [user_id] and
    [reviewed_by]; [Claim.user] says which one it follows, [User.claims]
    does not. *)
Example user_claims_join_candidates :
  join_candidates (mkRel "User" "claims" "Claim" None)
  = [mkFK "claims" "user_id" "users"; mkFK "claims" "reviewed_by" "users"]
  /\ join_candidates
       (mkRel "Claim" "user" "User" (Some [("claims", "user_id")]))
     = [mkFK "claims" "user_id" "users"].
Proof. split; reflexivity. Qed.

Example undetermined_joins :
  filter (fun r => negb (is_ok (determine_join r))) MAPPERS
  = [mkRel "User" "claims" "Claim" None].
Proof. reflexivity. Qed.

Lemma configure_mappers_declared :
  configure_mappers MAPPERS = Raise InvalidRequestError.
Proof. reflexivity. Qed.

Lemma configure_mappers_with_foreign_keys :
  configure_mappers MAPPERS_WITH_FOREIGN_KEYS = Ok tt.
Proof. reflexivity. Qed.

Example sqlite_real_values :
  sqlite_real 200%float = Some 200%float
  /\ sqlite_real (-0)%float = Some 0%float
  /\ sqlite_real PrimFloat.nan = None
  /\ sqlite_real PrimFloat.infinity = Some PrimFloat.infinity.
Proof. repeat split. Qed.

Example sqlite_int_values :
  sqlite_int 1 = Ok 1
  /\ sqlite_int 9223372036854775807 = Ok 9223372036854775807
  /\ sqlite_int 9223372036854775808 = Raise OverflowError
  /\ sqlite_int (-9223372036854775809) = Raise OverflowError.
Proof. repeat split. Qed.

Lemma get_current_user_declared (sub : option string) (db : DB) :
  get_current_user MAPPERS sub db = Raise (declared_answer sub).
Proof. now destruct sub. Qed.

Lemma authenticated_declared {A : Type} (sub : option string) (db : DB)
    (handler : User.t -> result A) :
  authenticated MAPPERS sub db handler = Raise (declared_answer sub).
Proof. unfold authenticated. now rewrite get_current_user_declared. Qed.

Lemma step_declared (db : DB) (req : datetime * request) :
  step MAPPERS db req = db.
Proof.
  destruct req as [utcnow r]. unfold step. simpl.
  destruct r; rewrite ?authenticated_declared; reflexivity.
Qed.

(** The handlers themselves, given a caller: the dependency on the
    caller may refuse first (400, 403); otherwise the first query, or
    the first mapped instance, raises. *)
Lemma active_handler_declared {A : Type} (u : User.t)
    (body : User.t -> result A) :
  (forall v, body v = Raise InvalidRequestError) ->
  is_ok (v <- get_current_active_user u ;; body v) = false.
Proof.
  intros Hb. unfold get_current_active_user.
  destruct (User.is_active u); simpl; [now rewrite Hb | reflexivity].
Qed.

Lemma admin_handler_declared {A : Type} (u : User.t)
    (body : User.t -> result A) :
  (forall v, body v = Raise InvalidRequestError) ->
  is_ok (v <- check_admin u ;; body v) = false.
Proof.
  intros Hb. unfold check_admin, get_current_active_user.
  destruct (User.is_active u); simpl; [|reflexivity].
  destruct (negb _); simpl; [reflexivity | now rewrite Hb].
Qed.

(** ** Activation *)

(** C1 (a defect of the code): with the relationships as declared,
    activation never goes through, from [PENDING] or from any other
    status.  The endpoint answers a token that verifies with the mapper
    failure; the handler, given any caller, returns no policy; and the
    store is left as it was. *)
Theorem activate_policy_never_returns
    (db : DB) (sub : option string) (policy_id : Z) (utcnow : datetime) :
  authenticated MAPPERS sub db
    (fun u => activate_policy MAPPERS policy_id db u utcnow)
  = Raise (declared_answer sub)
  /\ (forall current_user,
        is_ok (activate_policy MAPPERS policy_id db current_user utcnow)
        = false)
  /\ step MAPPERS db (utcnow, ActivatePolicy sub policy_id) = db.
Proof.
  split; [apply authenticated_declared|]. split; [|apply step_declared].
  intros u. unfold activate_policy.
  now apply (admin_handler_declared u).
Qed.

(** ** Claim review *)

Lemma update_claim_declared claim_id claim_update db u utcnow :
  is_ok (update_claim MAPPERS claim_id claim_update db u utcnow) = false.
Proof.
  unfold update_claim. now apply (active_handler_declared u).
Qed.

(** C2 (a defect of the code): with the relationships as declared, a
    review call that requests a status never goes through, whatever the
    claim's status: the endpoint answers a token that verifies with the
    mapper failure, which is not a refusal of the transition, and the
    store is left as it was. *)
Theorem update_claim_status_never_returns
    (db : DB) (sub : option string) (claim_id : Z) (s : ClaimStatus)
    (approved_amount : option float) (notes : option string)
    (utcnow : datetime) :
  authenticated MAPPERS sub db
    (fun u =>
       update_claim MAPPERS claim_id
         (ClaimUpdate.mk (Some s) approved_amount notes) db u utcnow)
  = Raise (declared_answer sub)
  /\ (forall current_user,
        is_ok (update_claim MAPPERS claim_id
                 (ClaimUpdate.mk (Some s) approved_amount notes) db
                 current_user utcnow) = false)
  /\ step MAPPERS db
       (utcnow,
        UpdateClaim sub claim_id (ClaimUpdate.mk (Some s) approved_amount notes))
     = db.
Proof.
  split; [apply authenticated_declared|]. split; [|apply step_declared].
  intros u. apply update_claim_declared.
Qed.

(** C3 (a defect of the code): with the relationships as declared, a
    review call that passes an approved amount never goes through,
    whether the amount exceeds the claimed amount or not: the endpoint
    answers a token that verifies with the mapper failure, which is not
    a refusal of the amount, and the store is left as it was. *)
Theorem update_claim_amount_never_returns
    (db : DB) (sub : option string) (claim_id : Z)
    (status : option ClaimStatus) (a : float) (notes : option string)
    (utcnow : datetime) :
  authenticated MAPPERS sub db
    (fun u =>
       update_claim MAPPERS claim_id
         (ClaimUpdate.mk status (Some a) notes) db u utcnow)
  = Raise (declared_answer sub)
  /\ (forall current_user,
        is_ok (update_claim MAPPERS claim_id
                 (ClaimUpdate.mk status (Some a) notes) db
                 current_user utcnow) = false)
  /\ step MAPPERS db
       (utcnow, UpdateClaim sub claim_id (ClaimUpdate.mk status (Some a) notes))
     = db.
Proof.
  split; [apply authenticated_declared|]. split; [|apply step_declared].
  intros u. apply update_claim_declared.
Qed.



(** ** Claim submission *)

(** C4 (a defect of the code): with the relationships as declared,
    claim submission fails for every caller and creates no claim, but
    not with the error for a policy that is not active: the endpoint
    answers a token that verifies with the mapper failure, whatever the
    status of the policy, and the handler never reaches its checks. *)
Theorem create_claim_never_returns
    (db : DB) (sub : option string) (claim : ClaimCreate.t)
    (number : string) (utcnow : datetime) :
  authenticated MAPPERS sub db
    (fun u => create_claim MAPPERS claim db u number utcnow)
  = Raise (declared_answer sub)
  /\ declared_answer sub <> policy_not_active
  /\ (forall current_user,
        create_claim MAPPERS claim db current_user number utcnow
        <> Raise policy_not_active)
  /\ step MAPPERS db (utcnow, CreateClaim sub claim number) = db.
Proof.
  split; [apply authenticated_declared|].
  split; [destruct sub; discriminate|].
  split; [|apply step_declared].
  intros u. unfold create_claim, get_current_active_user.
  destruct (User.is_active u); simpl; discriminate.
Qed.


(** ** Policy issuance *)

Example ymd2ord_2024_01_01 : ymd2ord 2024 1 1 = 738886.
Proof. reflexivity. Qed.

Example add_days_leap_year :
  add_days (datetime_ymd 2024 1 1) 365 = Ok (datetime_ymd 2024 12 31).
Proof. reflexivity. Qed.

Example add_days_common_year :
  add_days (datetime_ymd 2023 1 1) 365 = Ok (datetime_ymd 2024 1 1).
Proof. reflexivity. Qed.

Example add_days_out_of_range :
  add_days (datetime_ymd 9999 6 1) 365 = Raise OverflowError.
Proof. reflexivity. Qed.



(** The scenario of the issuance rule, whatever the relationships
    declared: a request of alice's for the plan with a monthly premium
    of 200, starting on 2024-01-01 and paid monthly, leaves the store as
    it was or adds a [PENDING] policy that ends on 2024-12-31 with a
    premium of 200. *)
Example issuance_scenario (registry : list relationship) :
  step registry (Sample.db_of (Sample.plan true) [] [])
    (Sample.t1, CreatePolicy (Some "alice") Sample.policy_request "POL1")
  = Sample.db_of (Sample.plan true) [] []
  \/ exists db_policy,
       step registry (Sample.db_of (Sample.plan true) [] [])
         (Sample.t1, CreatePolicy (Some "alice") Sample.policy_request "POL1")
       = set_policies (Sample.db_of (Sample.plan true) [] []) [db_policy]
       /\ Policy.user_id db_policy = 2
       /\ Policy.plan_id db_policy = 1
       /\ Policy.start_date db_policy = datetime_ymd 2024 1 1
       /\ Policy.end_date db_policy = datetime_ymd 2024 12 31
       /\ Policy.premium_amount db_policy = 200%float
       /\ Policy.status db_policy = PENDING.
Proof.
  unfold step. simpl. rewrite committed_authenticated.
  destruct (get_current_user registry (Some "alice") _) as [u|] eqn:Hu;
    [|now left].
  apply get_current_user_inv in Hu. destruct Hu as (Hu & _ & _).
  injection Hu as <-.
  destruct (create_policy registry _ _ _ _ _) as [[db' p]|] eqn:E; simpl;
    [|now left].
  destruct (create_policy_inv _ _ _ _ _ _ _ _ E)
    as (_ & (plan & Hp & Hprem) & _ & _ & Huid & Hpid & Hstart & Hend & Hst
        & _ & _ & ->).
  injection Hp as <-. injection Hprem as Hprem. injection Hend as Hend.
  right. exists p. repeat split; try assumption; symmetry; assumption.
Qed.

(** C6 (a defect of the code): with the relationships as declared,
    issuance fails and creates no policy whether the plan is missing,
    inactive or active, but never with the plan-not-found error: the
    endpoint answers a token that verifies with the mapper failure, and
    the handler raises at its query for the plan. *)
Theorem create_policy_never_returns
    (db : DB) (sub : option string) (policy : PolicyCreate.t)
    (number : string) (utcnow : datetime) :
  authenticated MAPPERS sub db
    (fun u => create_policy MAPPERS policy db u number utcnow)
  = Raise (declared_answer sub)
  /\ declared_answer sub <> plan_not_found
  /\ (forall current_user,
        create_policy MAPPERS policy db current_user number utcnow
        <> Raise plan_not_found)
  /\ step MAPPERS db (utcnow, CreatePolicy sub policy number) = db.
Proof.
  split; [apply authenticated_declared|].
  split; [destruct sub; discriminate|].
  split; [|apply step_declared].
  intros u. unfold create_policy, get_current_active_user.
  destruct (User.is_active u); simpl; discriminate.
Qed.

(** ** Listings *)

(** With the relationships as declared, the listings of policies,
    claims and payments return no rows to anybody, their own included:
    each endpoint answers a token that verifies with the mapper failure,
    and the handlers, given any caller, return nothing. *)
Theorem listings_never_return
    (db : DB) (sub : option string) (skip limit : Z)
    (status : option ClaimStatus) :
  authenticated MAPPERS sub db
    (fun u => get_policies MAPPERS skip limit db u)
  = Raise (declared_answer sub)
  /\ authenticated MAPPERS sub db
       (fun u => get_claims MAPPERS skip limit status db u)
     = Raise (declared_answer sub)
  /\ authenticated MAPPERS sub db
       (fun u => get_payments MAPPERS skip limit db u)
     = Raise (declared_answer sub)
  /\ (forall current_user,
        is_ok (get_policies MAPPERS skip limit db current_user) = false
        /\ is_ok (get_claims MAPPERS skip limit status db current_user)
           = false
        /\ is_ok (get_payments MAPPERS skip limit db current_user) = false).
Proof.
  repeat (split; [apply authenticated_declared|]).
  intros u. unfold get_policies, get_claims, get_payments,
    get_current_active_user.
  destruct (User.is_active u); simpl; [|repeat split].
  destruct (UserRole_eqb (User.role u) ADMIN); repeat split.
Qed.

(** C9: for a caller who is not an admin, the records that the listings
    of policies, claims and payments include are records of their
    tables whose [user_id] is the caller's id, and, when a status is
    given to the listing of claims, claims of that status; a record
    owned by another user is never included.  This holds whatever the
    relationships declared, and for every [skip] and [limit]. *)
Theorem listings_only_own
    (registry : list relationship) (db : DB) (sub : option string)
    (skip limit : Z) (status : option ClaimStatus) (caller : User.t) :
  caller_of sub db = Some caller ->
  User.role caller <> ADMIN ->
  (forall p,
     In p (listed (authenticated registry sub db
                     (fun u => get_policies registry skip limit db u))) ->
     In p (policies db) /\ Policy.user_id p = User.id caller)
  /\ (forall c,
        In c (listed (authenticated registry sub db
                        (fun u =>
                           get_claims registry skip limit status db u))) ->
        In c (claims db)
        /\ Claim.user_id c = User.id caller
        /\ match status with
           | Some s => Claim.status c = s
           | None => True
           end)
  /\ (forall q,
        In q (listed (authenticated registry sub db
                        (fun u => get_payments registry skip limit db u))) ->
        In q (payments db) /\ Payment.user_id q = User.id caller).
Proof.
  intros Hcaller Hrole. unfold authenticated.
  destruct (get_current_user registry sub db) as [u|] eqn:Hu; simpl;
    [|repeat split; contradiction].
  apply get_current_user_inv in Hu. destruct Hu as (Hu & _ & _).
  rewrite Hcaller in Hu. injection Hu as <-.
  assert (UserRole_eqb (User.role caller) ADMIN = false) as Hne.
  { destruct (UserRole_eqb (User.role caller) ADMIN) eqn:E; [|reflexivity].
    apply UserRole_eqb_eq in E. contradiction. }
  unfold get_policies, get_claims, get_payments, get_current_active_user.
  destruct (User.is_active caller); simpl; [|repeat split; contradiction].
  rewrite Hne. simpl. split; [|split].
  - intros p Hin. apply listed_all_rows in Hin.
    apply filter_In in Hin. destruct Hin as [Hin Hown].
    split; [exact Hin | now apply Z.eqb_eq].
  - intros c Hin. apply listed_all_rows in Hin.
    destruct status as [s|].
    + apply filter_In in Hin. destruct Hin as [Hin Hs].
      apply filter_In in Hin. destruct Hin as [Hin Hown].
      split; [exact Hin|]. split; [now apply Z.eqb_eq|].
      now apply ClaimStatus_eqb_eq.
    + apply filter_In in Hin. destruct Hin as [Hin Hown].
      split; [exact Hin|]. split; [now apply Z.eqb_eq | exact I].
  - intros q Hin. apply listed_all_rows in Hin.
    apply filter_In in Hin. destruct Hin as [Hin Hown].
    split; [exact Hin | now apply Z.eqb_eq].
Qed.

Lemma listings_only_own_witness :
  (forall p,
     In p (listed (authenticated MAPPERS (Some "bob")
                     (Sample.db_of (Sample.plan true) [Sample.policy ACTIVE]
                        [Sample.claim SUBMITTED])
                     (fun u =>
                        get_policies MAPPERS 0 100
                          (Sample.db_of (Sample.plan true)
                             [Sample.policy ACTIVE] [Sample.claim SUBMITTED])
                          u))) ->
     In p (policies
             (Sample.db_of (Sample.plan true) [Sample.policy ACTIVE]
                [Sample.claim SUBMITTED]))
     /\ Policy.user_id p = User.id Sample.bob)
  /\ (forall c,
        In c (listed (authenticated MAPPERS (Some "bob")
                        (Sample.db_of (Sample.plan true)
                           [Sample.policy ACTIVE] [Sample.claim SUBMITTED])
                        (fun u =>
                           get_claims MAPPERS 0 100 (Some SUBMITTED)
                             (Sample.db_of (Sample.plan true)
                                [Sample.policy ACTIVE]
                                [Sample.claim SUBMITTED]) u))) ->
        In c (claims
                (Sample.db_of (Sample.plan true) [Sample.policy ACTIVE]
                   [Sample.claim SUBMITTED]))
        /\ Claim.user_id c = User.id Sample.bob
        /\ Claim.status c = SUBMITTED)
  /\ (forall q,
        In q (listed (authenticated MAPPERS (Some "bob")
                        (Sample.db_of (Sample.plan true)
                           [Sample.policy ACTIVE] [Sample.claim SUBMITTED])
                        (fun u =>
                           get_payments MAPPERS 0 100
                             (Sample.db_of (Sample.plan true)
                                [Sample.policy ACTIVE]
                                [Sample.claim SUBMITTED]) u))) ->
        In q (payments
                (Sample.db_of (Sample.plan true) [Sample.policy ACTIVE]
                   [Sample.claim SUBMITTED]))
        /\ Payment.user_id q = User.id Sample.bob).
Proof.
  apply (listings_only_own MAPPERS
           (Sample.db_of (Sample.plan true) [Sample.policy ACTIVE]
              [Sample.claim SUBMITTED])
           (Some "bob") 0 100 (Some SUBMITTED) Sample.bob).
  - reflexivity.
  - discriminate.
Defined.



(** ** Users through any sequence of requests *)

Lemma deactivated_frame (utcnow : datetime) (u : User.t) :
  user_frame u (deactivated utcnow u).
Proof.
  unfold user_frame, deactivated.
  destruct (User.is_active u) eqn:E; simpl; repeat split; congruence.
Qed.

Lemma deactivated_inactive (utcnow : datetime) (u : User.t) :
  User.is_active (deactivated utcnow u) = false.
Proof.
  unfold deactivated. now destruct (User.is_active u) eqn:E.
Qed.

Lemma user_frame_refl (u : User.t) : user_frame u u.
Proof. unfold user_frame. tauto. Qed.

Lemma user_frame_trans (a b c : User.t) :
  user_frame a b -> user_frame b c -> user_frame a c.
Proof. unfold user_frame. intuition congruence. Qed.
Lemma effect_unique_logins (db db' : DB) :
  effect db db' -> unique_logins db -> unique_logins db'.
Proof.
  unfold unique_logins.
  intros He [Hn Hm]. inversion He; subst; simpl; auto.
  - rewrite !map_app. simpl.
    match goal with H : find _ _ = None |- _ => rename H into Hfree end.
    split; apply NoDup_snoc; auto; intros Hin;
      apply in_map_iff in Hin; destruct Hin as (x & Hx & Hin);
      pose proof (find_none _ _ Hfree x Hin) as Hf;
      unfold same_login in Hf; apply orb_false_iff in Hf;
      destruct Hf as [Hf1 Hf2]; rewrite Hx in *;
      rewrite String.eqb_refl in *; discriminate.
  - rewrite !map_update_first; auto; intros x;
      now destruct (deactivated_frame utcnow x) as (_ & ? & ? & _).
Qed.

(** Usernames and emails stay unique: a store in which no two users
    share a username or an email is still such a store after any
    sequence of requests. *)
Theorem run_unique_logins
    (registry : list relationship) (trace : list (datetime * request))
    (db : DB) :
  unique_logins db -> unique_logins (run registry db trace).
Proof.
  revert registry trace db. apply run_invariant. exact effect_unique_logins.
Qed.

Lemma sample_unique_logins :
  unique_logins (Sample.db_of (Sample.plan true) [Sample.policy PENDING] []).
Proof.
  split; simpl; repeat constructor; simpl; intuition discriminate.
Qed.

Lemma run_unique_logins_witness :
  unique_logins
    (run MAPPERS (Sample.db_of (Sample.plan true) [Sample.policy PENDING] [])
       [(Sample.t1,
         Register
           (UserCreate.mk "carol@example.com" "carol" None None None
              PROVIDER "password123") "$2b$12$carol");
        (Sample.t1,
         Register
           (UserCreate.mk "carol2@example.com" "carol" None None None
              ADMIN "password123") "$2b$12$carol2")]).
Proof.
  apply (run_unique_logins MAPPERS
           [(Sample.t1,
             Register
               (UserCreate.mk "carol@example.com" "carol" None None None
                  PROVIDER "password123") "$2b$12$carol");
            (Sample.t1,
             Register
               (UserCreate.mk "carol2@example.com" "carol" None None None
                  ADMIN "password123") "$2b$12$carol2")]
           (Sample.db_of (Sample.plan true) [Sample.policy PENDING] [])).
  split; simpl; repeat constructor; simpl; intuition discriminate.
Defined.

Lemma effect_user_frame (db db' : DB) (user_id : Z) (u : User.t) :
  effect db db' ->
  user_by_id user_id db = Some u ->
  exists u', user_by_id user_id db' = Some u' /\ user_frame u u'.
Proof.
  unfold user_by_id.
  intros He Hf. inversion He; subst; simpl;
    try (exists u; split; [exact Hf | apply user_frame_refl]).
  - exists u. split; [now apply find_app_some | apply user_frame_refl].
  - destruct (find_update_first (fun x => User.id x =? user_id0)
                (fun x => User.id x =? user_id) (deactivated utcnow)
                (users db) u) as [Hsame | Hupd]; [ | exact Hf | | ].
    + intros x. now destruct (deactivated_frame utcnow x) as [-> _].
    + exists u. split; [exact Hsame | apply user_frame_refl].
    + exists (deactivated utcnow u).
      split; [exact Hupd | apply deactivated_frame].
Qed.

(** No request changes who a user is: through any sequence of
    requests a user is still found under its id with the same email,
    username, password hash, contact fields and role; [is_active] can
    go from true to false and never back. *)
Theorem run_user_frame
    (registry : list relationship) (trace : list (datetime * request))
    (db : DB) (user_id : Z) (u : User.t) :
  user_by_id user_id db = Some u ->
  exists u',
    user_by_id user_id (run registry db trace) = Some u'
    /\ user_frame u u'.
Proof.
  intros Hf.
  apply (run_invariant
           (fun d => exists u', user_by_id user_id d = Some u'
                                /\ user_frame u u')).
  - intros d d' He (v & Hv & Huv).
    destruct (effect_user_frame d d' user_id v He Hv) as (w & Hw & Hvw).
    exists w. split; [exact Hw | exact (user_frame_trans _ _ _ Huv Hvw)].
  - exists u. split; [exact Hf | apply user_frame_refl].
Qed.

Lemma run_user_frame_witness :
  exists u',
    user_by_id 2
      (run MAPPERS (Sample.db_of (Sample.plan true) [Sample.policy PENDING] [])
         [(Sample.t1, DeactivateUser (Some "admin") 2);
          (Sample.t1, ActivatePolicy (Some "alice") 1)]) = Some u'
    /\ user_frame Sample.alice u'.
Proof.
  apply (run_user_frame MAPPERS
           [(Sample.t1, DeactivateUser (Some "admin") 2);
            (Sample.t1, ActivatePolicy (Some "alice") 1)]
           (Sample.db_of (Sample.plan true) [Sample.policy PENDING] [])
           2 Sample.alice).
  reflexivity.
Defined.

(** ** Users who are not active *)

Lemma effect_locked_out (username : string) (db db' : DB) :
  effect db db' -> locked_out username db -> locked_out username db'.
Proof.
  unfold locked_out.
  intros He (u & Hf & Ha). inversion He; subst; simpl;
    try (exists u; split; [exact Hf | exact Ha]).
  - exists u. split; [now apply find_app_some | exact Ha].
  - destruct (find_update_first (fun x => User.id x =? user_id)
                (fun x => (User.username x =? username)%string)
                (deactivated utcnow) (users db) u) as [Hsame | Hupd];
      [ | exact Hf | | ].
    + intros x. now destruct (deactivated_frame utcnow x) as (_ & _ & -> & _).
    + exists u. split; [exact Hsame | exact Ha].
    + exists (deactivated utcnow u).
      split; [exact Hupd | apply deactivated_inactive].
Qed.


(** ** Policies and claims through any sequence of requests *)

Lemma apply_claim_update_frame
    (claim_update : ClaimUpdate.t) (reviewer : Z) (utcnow : datetime)
    (claim : Claim.t) :
  claim_frame claim (apply_claim_update claim_update reviewer utcnow claim).
Proof.
  unfold claim_frame, apply_claim_update.
  destruct (ClaimUpdate.status claim_update); simpl; repeat split.
Qed.

Lemma claim_frame_refl (c : Claim.t) : claim_frame c c.
Proof. unfold claim_frame. tauto. Qed.

Lemma claim_frame_trans (a b c : Claim.t) :
  claim_frame a b -> claim_frame b c -> claim_frame a c.
Proof. unfold claim_frame. intuition congruence. Qed.

Lemma effect_policy_status (db db' : DB) (policy_id : Z) (p : Policy.t) :
  effect db db' ->
  policy_by_id policy_id db = Some p ->
  exists p',
    policy_by_id policy_id db' = Some p'
    /\ (Policy.status p' = Policy.status p \/ Policy.status p' = ACTIVE).
Proof.
  unfold policy_by_id.
  intros He Hf. inversion He; subst; simpl;
    try (exists p; split; [exact Hf | now left]).
  - exists p. split; [now apply find_app_some | now left].
  - destruct (find_update_first (fun x => Policy.id x =? policy_id0)
                (fun x => Policy.id x =? policy_id)
                (assign_status ACTIVE utcnow) (policies db) p)
      as [Hsame | Hupd]; [ | exact Hf | | ].
    + intros x. now destruct (assign_status_frame ACTIVE utcnow x) as [-> _].
    + exists p. split; [exact Hsame | now left].
    + exists (assign_status ACTIVE utcnow p).
      split; [exact Hupd | right; apply assign_status_status].
Qed.

(** The only status a request ever gives a policy is [ACTIVE]: through
    any sequence of requests a policy is found under its id with the
    status it had, or with [ACTIVE].  An active policy stays active,
    and nothing expires or cancels a policy. *)
Theorem run_policy_status
    (registry : list relationship) (trace : list (datetime * request))
    (db : DB) (policy_id : Z)
    (p : Policy.t) :
  policy_by_id policy_id db = Some p ->
  exists p',
    policy_by_id policy_id (run registry db trace) = Some p'
    /\ (Policy.status p' = Policy.status p \/ Policy.status p' = ACTIVE).
Proof.
  intros Hf.
  apply (run_invariant
           (fun d => exists p',
                policy_by_id policy_id d = Some p'
                /\ (Policy.status p' = Policy.status p
                    \/ Policy.status p' = ACTIVE))).
  - intros d d' He (q & Hq & Hs).
    destruct (effect_policy_status d d' policy_id q He Hq) as (r & Hr & Hs').
    exists r. split; [exact Hr|].
    destruct Hs' as [-> | ->]; [exact Hs | now right].
  - exists p. split; [exact Hf | now left].
Qed.

Lemma run_policy_status_witness :
  exists p',
    policy_by_id 1
      (run MAPPERS (Sample.db_of (Sample.plan true) [Sample.policy EXPIRED] [])
         [(Sample.t1, ActivatePolicy (Some "admin") 1);
          (Sample.t1, CreatePayment (Some "alice")
                        (PaymentCreate.mk 1 200%float "card" None None)
                        "PAY0000000001")]) = Some p'
    /\ (Policy.status p' = EXPIRED \/ Policy.status p' = ACTIVE).
Proof.
  apply (run_policy_status MAPPERS
           [(Sample.t1, ActivatePolicy (Some "admin") 1);
            (Sample.t1, CreatePayment (Some "alice")
                          (PaymentCreate.mk 1 200%float "card" None None)
                          "PAY0000000001")]
           (Sample.db_of (Sample.plan true) [Sample.policy EXPIRED] [])
           1 (Sample.policy EXPIRED)).
  reflexivity.
Defined.

Lemma effect_claims_on_active (db db' : DB) :
  effect db db' ->
  claims_on_active_policies db -> claims_on_active_policies db'.
Proof.
  unfold claims_on_active_policies, policy_by_id.
  intros He Hinv. inversion He; subst; simpl; auto.
  - intros c Hc. destruct (Hinv c Hc) as (q & Hq & Hs).
    exists q. split; [now apply find_app_some | exact Hs].
  - intros c Hc. destruct (Hinv c Hc) as (q & Hq & Hs).
    destruct (find_update_first (fun x => Policy.id x =? policy_id)
                (fun x => Policy.id x =? Claim.policy_id c)
                (assign_status ACTIVE utcnow) (policies db) q)
      as [Hsame | Hupd]; [ | exact Hq | | ].
    + intros x. now destruct (assign_status_frame ACTIVE utcnow x) as [-> _].
    + exists q. split; [exact Hsame | exact Hs].
    + exists (assign_status ACTIVE utcnow q).
      split; [exact Hupd | apply assign_status_status].
  - intros c' Hc'. apply in_app_or in Hc'.
    destruct Hc' as [Hc' | [<- | []]]; [now apply Hinv|].
    exists policy. split; assumption.
  - intros c' Hc'. apply in_update_first in Hc'.
    destruct Hc' as [Hc' | (x & Hx & ->)]; [now apply Hinv|].
    destruct (apply_claim_update_frame claim_update (User.id caller) utcnow x)
      as (_ & _ & _ & -> & _).
    now apply Hinv.
Qed.

(** Claims are only ever on record against active policies: if every
    claim of the store is against a policy that is active, this is still
    so after any sequence of requests.  In particular it holds of every
    store grown from one without claims. *)
Theorem run_claims_on_active_policies
    (registry : list relationship) (trace : list (datetime * request))
    (db : DB) :
  claims_on_active_policies db ->
  claims_on_active_policies (run registry db trace).
Proof.
  revert registry trace db. apply run_invariant. exact effect_claims_on_active.
Qed.

Lemma run_claims_on_active_policies_witness :
  claims (Sample.db_of (Sample.plan true) [Sample.policy ACTIVE]
            [Sample.claim SUBMITTED]) = [Sample.claim SUBMITTED]
  /\ claims_on_active_policies
       (run MAPPERS
          (Sample.db_of (Sample.plan true) [Sample.policy ACTIVE]
             [Sample.claim SUBMITTED])
          [(Sample.t1, CreateClaim (Some "alice") Sample.claim_request "CLM1");
           (Sample.t1, ActivatePolicy (Some "admin") 1);
           (Sample.t1,
            UpdateClaim (Some "admin") 1
              (ClaimUpdate.mk (Some APPROVED) None None))]).
Proof.
  split; [reflexivity|].
  apply (run_claims_on_active_policies MAPPERS
           [(Sample.t1, CreateClaim (Some "alice") Sample.claim_request "CLM1");
            (Sample.t1, ActivatePolicy (Some "admin") 1);
            (Sample.t1,
             UpdateClaim (Some "admin") 1
               (ClaimUpdate.mk (Some APPROVED) None None))]
           (Sample.db_of (Sample.plan true) [Sample.policy ACTIVE]
              [Sample.claim SUBMITTED])).
  intros c [<- | []]. exists (Sample.policy ACTIVE). split; reflexivity.
Defined.

Lemma effect_claim_frame (db db' : DB) (claim_id : Z) (c : Claim.t) :
  effect db db' ->
  claim_by_id claim_id db = Some c ->
  exists c', claim_by_id claim_id db' = Some c' /\ claim_frame c c'.
Proof.
  unfold claim_by_id.
  intros He Hf. inversion He; subst; simpl;
    try (exists c; split; [exact Hf | apply claim_frame_refl]).
  - exists c. split; [now apply find_app_some | apply claim_frame_refl].
  - destruct (find_update_first (fun x => Claim.id x =? claim_id0)
                (fun x => Claim.id x =? claim_id)
                (apply_claim_update claim_update (User.id caller) utcnow)
                (claims db) c)
      as [Hsame | Hupd]; [ | exact Hf | | ].
    + intros x. now rewrite apply_claim_update_id.
    + exists c. split; [exact Hsame | apply claim_frame_refl].
    + eexists. split; [exact Hupd | apply apply_claim_update_frame].
Qed.

(** A claim cannot be rewritten: through any sequence of requests it
    is found under its id with the owner, policy, claim number, dates,
    provider, codes, documents and claimed amount it was submitted with;
    reviews change only the status, the approved amount, the notes and
    the review fields. *)
Theorem run_claim_frame
    (registry : list relationship) (trace : list (datetime * request))
    (db : DB) (claim_id : Z)
    (c : Claim.t) :
  claim_by_id claim_id db = Some c ->
  exists c',
    claim_by_id claim_id (run registry db trace) = Some c'
    /\ claim_frame c c'.
Proof.
  intros Hf.
  apply (run_invariant
           (fun d => exists c', claim_by_id claim_id d = Some c'
                                /\ claim_frame c c')).
  - intros d d' He (x & Hx & Hcx).
    destruct (effect_claim_frame d d' claim_id x He Hx) as (y & Hy & Hxy).
    exists y. split; [exact Hy | exact (claim_frame_trans _ _ _ Hcx Hxy)].
  - exists c. split; [exact Hf | apply claim_frame_refl].
Qed.

Lemma run_claim_frame_witness :
  exists c',
    claim_by_id 1
      (run MAPPERS (Sample.db_of (Sample.plan true) [Sample.policy ACTIVE]
              [Sample.claim SUBMITTED])
         [(Sample.t1, UpdateClaim (Some "admin") 1
                        (ClaimUpdate.mk (Some PAID) (Some 900%float)
                           (Some "settled")))]) = Some c'
    /\ claim_frame (Sample.claim SUBMITTED) c'.
Proof.
  apply (run_claim_frame MAPPERS
           [(Sample.t1, UpdateClaim (Some "admin") 1
                          (ClaimUpdate.mk (Some PAID) (Some 900%float)
                             (Some "settled")))]
           (Sample.db_of (Sample.plan true) [Sample.policy ACTIVE]
              [Sample.claim SUBMITTED])
           1 (Sample.claim SUBMITTED)).
  reflexivity.
Defined.

(** ** Nothing is deleted *)

Lemma extends_refl {A : Type} (l : list A) : extends l l.
Proof. exists []. now rewrite app_nil_r. Qed.

Lemma extends_trans {A : Type} (a b c : list A) :
  extends a b -> extends b c -> extends a c.
Proof.
  intros [x ->] [y ->]. exists (x ++ y)%list. now rewrite app_assoc.
Qed.

Lemma extends_snoc {A : Type} (l : list A) (x : A) : extends l (l ++ [x]).
Proof. now exists [x]. Qed.

Lemma effect_append_only (db db' : DB) : effect db db' -> append_only db db'.
Proof.
  unfold append_only.
  intros He. inversion He; subst; simpl; rewrite ?map_app; simpl;
    repeat split;
    try apply extends_refl; try apply extends_snoc.
  - rewrite map_update_first; [apply extends_refl|].
    intros x. now destruct (deactivated_frame utcnow x) as [-> _].
  - rewrite map_update_first; [apply extends_refl|].
    intros x. now destruct (assign_status_frame ACTIVE utcnow x) as [-> _].
  - rewrite map_update_first; [apply extends_refl|].
    intros x. now rewrite apply_claim_update_id.
Qed.

(** No request deletes or reorders rows.  After any sequence of
    requests the plans and the payments on record are the former ones,
    unchanged, followed by the new ones; and the ids of the users,
    policies and claims are the former ids followed by new ones. *)
Theorem run_append_only
    (registry : list relationship) (trace : list (datetime * request))
    (db : DB) :
  extends (insurance_plans db) (insurance_plans (run registry db trace))
  /\ extends (payments db) (payments (run registry db trace))
  /\ extends (map User.id (users db))
       (map User.id (users (run registry db trace)))
  /\ extends (map Policy.id (policies db))
       (map Policy.id (policies (run registry db trace)))
  /\ extends (map Claim.id (claims db))
       (map Claim.id (claims (run registry db trace))).
Proof.
  apply (run_invariant (append_only db)).
  - intros d d' He (H1 & H2 & H3 & H4 & H5).
    destruct (effect_append_only d d' He) as (E1 & E2 & E3 & E4 & E5).
    repeat split; eapply extends_trans; eassumption.
  - repeat split; apply extends_refl.
Qed.


(** ** Foreign keys *)










(** ** The premium of a policy *)

Lemma effect_policy_frame (db db' : DB) (policy_id : Z) (p : Policy.t) :
  effect db db' ->
  policy_by_id policy_id db = Some p ->
  exists p', policy_by_id policy_id db' = Some p' /\ policy_frame p p'.
Proof.
  unfold policy_by_id.
  intros He Hf. inversion He; subst; simpl;
    try (exists p; split; [exact Hf | apply policy_frame_refl]).
  - exists p. split; [now apply find_app_some | apply policy_frame_refl].
  - destruct (find_update_first (fun x => Policy.id x =? policy_id0)
                (fun x => Policy.id x =? policy_id)
                (assign_status ACTIVE utcnow) (policies db) p)
      as [Hsame | Hupd]; [ | exact Hf | | ].
    + intros x. now destruct (assign_status_frame ACTIVE utcnow x) as [-> _].
    + exists p. split; [exact Hsame | apply policy_frame_refl].
    + exists (assign_status ACTIVE utcnow p).
      split; [exact Hupd | apply assign_status_frame].
Qed.

(** C7: through any sequence of requests (startup, registration, plan
    creation, user deactivation, issuance, activation, claim submission,
    claim review, payment recording), whatever the relationships
    declared, a policy of the store is still found under its id, with
    the premium amount it had, and with every other field as it was
    except [status] and [updated_at]. *)
Theorem premium_amount_fixed
    (registry : list relationship) (trace : list (datetime * request))
    (db : DB) (policy_id : Z) (policy : Policy.t) :
  policy_by_id policy_id db = Some policy ->
  exists policy',
    policy_by_id policy_id (run registry db trace) = Some policy'
    /\ Policy.premium_amount policy' = Policy.premium_amount policy
    /\ policy_frame policy policy'.
Proof.
  intros Hf.
  assert (exists policy',
             policy_by_id policy_id (run registry db trace) = Some policy'
             /\ policy_frame policy policy') as (q & Hq & Hpq).
  { apply (run_invariant
             (fun d => exists policy',
                  policy_by_id policy_id d = Some policy'
                  /\ policy_frame policy policy')).
    - intros d d' He (q & Hq & Hpq).
      destruct (effect_policy_frame d d' policy_id q He Hq) as (r & Hr & Hqr).
      exists r. split; [exact Hr | exact (policy_frame_trans _ _ _ Hpq Hqr)].
    - exists policy. split; [exact Hf | apply policy_frame_refl]. }
  exists q. split; [exact Hq|]. split; [apply Hpq | exact Hpq].
Qed.

Lemma premium_amount_fixed_witness :
  exists policy',
    policy_by_id 1
      (run MAPPERS
         (Sample.db_of (Sample.plan true) [Sample.policy PENDING] [])
         [(Sample.t1, ActivatePolicy (Some "admin") 1);
          (Sample.t1, CreateClaim (Some "alice") Sample.claim_request
                        "CLM0000000001");
          (Sample.t1, UpdateClaim (Some "admin") 1
                        (ClaimUpdate.mk (Some APPROVED) (Some 500%float)
                           None));
          (Sample.t1, CreatePayment (Some "alice")
                        (PaymentCreate.mk 1 200%float "card" None None)
                        "PAY0000000001")]) = Some policy'
    /\ Policy.premium_amount policy' = 200%float
    /\ policy_frame (Sample.policy PENDING) policy'.
Proof.
  apply (premium_amount_fixed MAPPERS
           [(Sample.t1, ActivatePolicy (Some "admin") 1);
            (Sample.t1, CreateClaim (Some "alice") Sample.claim_request
                          "CLM0000000001");
            (Sample.t1, UpdateClaim (Some "admin") 1
                          (ClaimUpdate.mk (Some APPROVED) (Some 500%float)
                             None));
            (Sample.t1, CreatePayment (Some "alice")
                          (PaymentCreate.mk 1 200%float "card" None None)
                          "PAY0000000001")]
           (Sample.db_of (Sample.plan true) [Sample.policy PENDING] [])
           1 (Sample.policy PENDING)).
  reflexivity.
Defined.

(** ** Callers that are turned away *)

Lemma step_unresolved registry (db : DB) (utcnow : datetime) (r : request)
    (s : option string) (e : exception) :
  request_sub r = Some s ->
  get_current_user registry s db = Raise e ->
  step registry db (utcnow, r) = db.
Proof.
  intros Hs Hu. destruct r; simpl in Hs; try discriminate;
    injection Hs as ->; unfold step; simpl;
    rewrite committed_authenticated; now rewrite Hu.
Qed.

Lemma step_inactive registry (db : DB) (utcnow : datetime) (r : request)
    (s : option string) (u : User.t) :
  request_sub r = Some s ->
  get_current_user registry s db = Ok u ->
  User.is_active u = false ->
  step registry db (utcnow, r) = db.
Proof.
  intros Hs Hu Ha. destruct r; simpl in Hs; try discriminate;
    injection Hs as ->; unfold step; simpl;
    rewrite committed_authenticated; rewrite Hu;
    unfold create_plan, deactivate_user, create_policy, activate_policy,
      create_claim, update_claim, create_payment, check_admin,
      get_current_active_user;
    now rewrite Ha.
Qed.

(** A request whose token names no user, or a user who is not active,
    changes nothing in the store, whichever handler it addresses and
    whatever the relationships declared. *)
Theorem rejected_caller_no_effect
    (registry : list relationship) (db : DB) (utcnow : datetime)
    (r : request) (s : option string) :
  request_sub r = Some s ->
  (forall u, get_current_user registry s db = Ok u ->
             User.is_active u = false) ->
  step registry db (utcnow, r) = db.
Proof.
  intros Hs Hu. destruct (get_current_user registry s db) as [u|e] eqn:E.
  - apply (step_inactive registry db utcnow r s u Hs E). now apply Hu.
  - exact (step_unresolved registry db utcnow r s e Hs E).
Qed.

Lemma rejected_caller_no_effect_witness :
  step MAPPERS (Sample.db_of (Sample.plan true) [Sample.policy PENDING] [])
    (Sample.t1, ActivatePolicy (Some "nobody") 1)
  = Sample.db_of (Sample.plan true) [Sample.policy PENDING] [].
Proof.
  apply (rejected_caller_no_effect MAPPERS
           (Sample.db_of (Sample.plan true) [Sample.policy PENDING] [])
           Sample.t1 (ActivatePolicy (Some "nobody") 1) (Some "nobody")).
  - reflexivity.
  - intros u. discriminate.
Defined.

Lemma step_caller registry (db : DB) (utcnow : datetime) (r : request)
    (s : option string) :
  request_sub r = Some s ->
  (forall u, caller_of s db = Some u -> User.is_active u = false) ->
  step registry db (utcnow, r) = db.
Proof.
  intros Hs Hu. destruct (get_current_user registry s db) as [u|e] eqn:E.
  - apply (step_inactive registry db utcnow r s u Hs E). apply Hu.
    now apply get_current_user_inv in E.
  - exact (step_unresolved registry db utcnow r s e Hs E).
Qed.

(** Deactivation is for good: once the user who logs in under a name
    is not active, no later request under that name changes the store,
    whatever happened in between and whatever the relationships
    declared. *)
Theorem locked_out_no_effect
    (registry : list relationship) (trace : list (datetime * request))
    (db : DB) (username : string) (utcnow : datetime) (r : request) :
  locked_out username db ->
  request_sub r = Some (Some username) ->
  step registry (run registry db trace) (utcnow, r) = run registry db trace.
Proof.
  intros Hl Hs.
  assert (locked_out username (run registry db trace)) as (v & Hv & Ha).
  { revert Hl. apply run_invariant. intros d d'. apply effect_locked_out. }
  apply (step_caller registry _ utcnow r _ Hs).
  intros u Hu. simpl in Hu. congruence.
Qed.

Lemma locked_out_no_effect_witness :
  step MAPPERS
    (run MAPPERS
       (mkDB [Sample.admin; deactivated Sample.t0 Sample.alice]
          [Sample.plan true] [Sample.policy ACTIVE] [] [])
       [(Sample.t1, ActivatePolicy (Some "admin") 1)])
    (Sample.t1, CreateClaim (Some "alice") Sample.claim_request "CLM1")
  = run MAPPERS
      (mkDB [Sample.admin; deactivated Sample.t0 Sample.alice]
         [Sample.plan true] [Sample.policy ACTIVE] [] [])
      [(Sample.t1, ActivatePolicy (Some "admin") 1)].
Proof.
  apply (locked_out_no_effect MAPPERS
           [(Sample.t1, ActivatePolicy (Some "admin") 1)]
           (mkDB [Sample.admin; deactivated Sample.t0 Sample.alice]
              [Sample.plan true] [Sample.policy ACTIVE] [] [])
           "alice" Sample.t1
           (CreateClaim (Some "alice") Sample.claim_request "CLM1")).
  - exists (deactivated Sample.t0 Sample.alice). split; reflexivity.
  - reflexivity.
Defined.

(** ** Registration under a taken name *)

Lemma in_update_first_image {A : Type} (sel : A -> bool) (upd : A -> A)
    (l : list A) (x : A) :
  In x l ->
  In x (update_first sel upd l) \/ In (upd x) (update_first sel upd l).
Proof.
  induction l as [|y l IH]; simpl; [tauto|].
  intros [-> | Hin].
  - destruct (sel x); simpl; auto.
  - destruct (sel y); simpl; [auto|].
    destruct (IH Hin); auto.
Qed.

Lemma effect_login_taken (email username : string) (db db' : DB) :
  effect db db' ->
  (exists u, In u (users db)
             /\ User.email u = email /\ User.username u = username) ->
  exists u, In u (users db')
            /\ User.email u = email /\ User.username u = username.
Proof.
  intros He (u & Hin & Hu). inversion He; subst; simpl;
    try (exists u; split; [exact Hin | exact Hu]).
  - exists u. split; [apply in_or_app; now left | exact Hu].
  - destruct (in_update_first_image (fun x => User.id x =? user_id)
                (deactivated utcnow) (users db) u Hin) as [Hkept | Hupd].
    + exists u. split; [exact Hkept | exact Hu].
    + exists (deactivated utcnow u). split; [exact Hupd|].
      destruct (deactivated_frame utcnow u) as (_ & -> & -> & _).
      exact Hu.
Qed.

(** An email address or a username, once on record, stays taken: after
    any sequence of requests, a registration under the email or the
    username of a user of the store changes nothing, whatever the
    relationships declared. *)
Theorem register_taken_no_effect
    (registry : list relationship) (trace : list (datetime * request))
    (db : DB) (u : User.t) (user : UserCreate.t) (hashed : string)
    (utcnow : datetime) :
  In u (users db) ->
  User.email u = UserCreate.email user
  \/ User.username u = UserCreate.username user ->
  step registry (run registry db trace) (utcnow, Register user hashed)
  = run registry db trace.
Proof.
  intros Hin Htaken.
  assert (exists v, In v (users (run registry db trace))
                    /\ User.email v = User.email u
                    /\ User.username v = User.username u)
    as (v & Hv & He & Hn).
  { apply (run_invariant
             (fun d => exists v, In v (users d)
                                 /\ User.email v = User.email u
                                 /\ User.username v = User.username u)).
    - intros d d'. apply effect_login_taken.
    - exists u. auto. }
  unfold step. simpl. unfold register.
  destruct (configure_mappers registry) as [[]|]; simpl; [|reflexivity].
  destruct (find_exists
              (fun x => (User.email x =? UserCreate.email user)%string
                        || (User.username x =? UserCreate.username user)%string)
              (users (run registry db trace)) v Hv) as (y & ->);
    [|reflexivity].
  apply orb_true_iff.
  destruct Htaken as [H | H]; [left | right]; apply String.eqb_eq; congruence.
Qed.

Lemma register_taken_no_effect_witness :
  step MAPPERS
    (run MAPPERS (Sample.db_of (Sample.plan true) [Sample.policy PENDING] [])
       [(Sample.t1, DeactivateUser (Some "admin") 2)])
    (Sample.t1,
     Register
       (UserCreate.mk "alice2@example.com" "alice" None None None ADMIN
          "password123") "$2b$12$alice2")
  = run MAPPERS (Sample.db_of (Sample.plan true) [Sample.policy PENDING] [])
      [(Sample.t1, DeactivateUser (Some "admin") 2)].
Proof.
  apply (register_taken_no_effect MAPPERS
           [(Sample.t1, DeactivateUser (Some "admin") 2)]
           (Sample.db_of (Sample.plan true) [Sample.policy PENDING] [])
           Sample.alice
           (UserCreate.mk "alice2@example.com" "alice" None None None ADMIN
              "password123") "$2b$12$alice2" Sample.t1).
  - simpl. auto.
  - right. reflexivity.
Defined.

(** ** Plans stay active *)

Lemma effect_plans_active (db db' : DB) :
  effect db db' ->
  Forall (fun p => InsurancePlan.is_active p = true) (insurance_plans db) ->
  Forall (fun p => InsurancePlan.is_active p = true) (insurance_plans db').
Proof.
  intros He Hall. inversion He; subst; simpl; auto.
  apply Forall_app. split; [exact Hall|]. now constructor.
Qed.

(** No request clears [is_active] of a plan or stores a plan that is
    not active: if every plan of the store is active, this is still so
    after any sequence of requests, whatever the relationships
    declared.  A plan that is not active comes from outside the
    service. *)
Theorem run_plans_active
    (registry : list relationship) (trace : list (datetime * request))
    (db : DB) :
  Forall (fun p => InsurancePlan.is_active p = true) (insurance_plans db) ->
  Forall (fun p => InsurancePlan.is_active p = true)
    (insurance_plans (run registry db trace)).
Proof.
  revert registry trace db. apply run_invariant. exact effect_plans_active.
Qed.

Lemma run_plans_active_witness :
  Forall (fun p => InsurancePlan.is_active p = true)
    (insurance_plans
       (run MAPPERS
          (Sample.db_of (Sample.plan true) [Sample.policy PENDING] [])
          [(Sample.t1,
            CreatePolicy (Some "alice") Sample.policy_request "POL1")])).
Proof.
  apply (run_plans_active MAPPERS
           [(Sample.t1,
             CreatePolicy (Some "alice") Sample.policy_request "POL1")]
           (Sample.db_of (Sample.plan true) [Sample.policy PENDING] [])).
  repeat constructor.
Defined.

(** ** Requests that are refused *)

Lemma committed_refused {A : Type} (db : DB) (r : result (DB * A)) :
  (forall db' x, r <> Ok (db', x)) -> committed db r = db.
Proof.
  destruct r as [[db' x]|]; simpl; [|reflexivity].
  intros H. now destruct (H db' x).
Qed.

Ltac as_caller u Hcaller :=
  unfold step; simpl; rewrite committed_authenticated;
  let Hu := fresh "Hu" in
  destruct (get_current_user _ _ _) as [u|] eqn:Hu; [|reflexivity];
  apply get_current_user_inv in Hu; destruct Hu as (Hcaller & _ & _);
  apply committed_refused; intros ? ? ?.

Lemma check_admin_inv (u v : User.t) :
  check_admin u = Ok v ->
  v = u /\ User.is_active u = true /\ User.role u = ADMIN.
Proof.
  unfold check_admin, get_current_active_user.
  destruct (User.is_active u); simpl; [|discriminate].
  destruct (UserRole_eqb (User.role u) ADMIN) eqn:E; simpl; [|discriminate].
  apply UserRole_eqb_eq in E. now intros [= <-].
Qed.

Lemma create_plan_admin registry plan db u utcnow db' r :
  create_plan registry plan db u utcnow = Ok (db', r) ->
  User.is_active u = true /\ User.role u = ADMIN.
Proof.
  unfold create_plan. destruct (check_admin u) as [v|] eqn:E; simpl;
    [|discriminate].
  intros _. now apply check_admin_inv in E.
Qed.

(** Plan creation, user deactivation and policy activation are the
    admins': a request for one of them from any other caller changes
    nothing in the store, whatever the relationships declared. *)
Theorem admin_only_no_effect
    (registry : list relationship) (db : DB) (utcnow : datetime)
    (sub : option string) (plan : InsurancePlanCreate.t)
    (user_id policy_id : Z) :
  (forall u, caller_of sub db = Some u -> User.role u <> ADMIN) ->
  step registry db (utcnow, CreatePlan sub plan) = db
  /\ step registry db (utcnow, DeactivateUser sub user_id) = db
  /\ step registry db (utcnow, ActivatePolicy sub policy_id) = db.
Proof.
  intros Hrole. split; [|split]; as_caller u Hcaller;
    apply (Hrole u Hcaller).
  - eapply create_plan_admin; eassumption.
  - eapply deactivate_user_inv; eassumption.
  - eapply activate_policy_inv; eassumption.
Qed.

Lemma admin_only_no_effect_witness :
  step MAPPERS (Sample.db_of (Sample.plan true) [Sample.policy PENDING] [])
    (Sample.t1,
     CreatePlan (Some "alice")
       (InsurancePlanCreate.mk "Gold" PREMIUM None 900%float 9900%float
          50000%float 0%float 20%float None None None))
  = Sample.db_of (Sample.plan true) [Sample.policy PENDING] []
  /\ step MAPPERS
       (Sample.db_of (Sample.plan true) [Sample.policy PENDING] [])
       (Sample.t1, DeactivateUser (Some "alice") 3)
     = Sample.db_of (Sample.plan true) [Sample.policy PENDING] []
  /\ step MAPPERS
       (Sample.db_of (Sample.plan true) [Sample.policy PENDING] [])
       (Sample.t1, ActivatePolicy (Some "alice") 1)
     = Sample.db_of (Sample.plan true) [Sample.policy PENDING] [].
Proof.
  apply (admin_only_no_effect MAPPERS
           (Sample.db_of (Sample.plan true) [Sample.policy PENDING] [])
           Sample.t1 (Some "alice")
           (InsurancePlanCreate.mk "Gold" PREMIUM None 900%float 9900%float
              50000%float 0%float 20%float None None None) 3 1).
  intros u [= <-]. discriminate.
Defined.

(** Claims are reviewed by admins and agents, and only claims on
    record: a review request from any other caller, or for an id under
    which there is no claim, changes nothing in the store, whatever the
    relationships declared. *)
Theorem update_claim_refused_no_effect
    (registry : list relationship) (db : DB) (utcnow : datetime)
    (sub : option string) (claim_id : Z) (claim_update : ClaimUpdate.t) :
  (forall u, caller_of sub db = Some u -> reviewer_role u = false)
  \/ claim_by_id claim_id db = None ->
  step registry db (utcnow, UpdateClaim sub claim_id claim_update) = db.
Proof.
  intros Href. as_caller u Hcaller.
  match goal with H : update_claim _ _ _ _ _ _ = Ok _ |- _ =>
    destruct (update_claim_inv _ _ _ _ _ _ _ _ H)
      as (_ & Hr & claim & Hf & _ & _)
  end.
  destruct Href as [Hrole | Hnone]; [|congruence].
  rewrite (Hrole u Hcaller) in Hr. discriminate.
Qed.

Lemma update_claim_refused_no_effect_witness :
  step MAPPERS
    (Sample.db_of (Sample.plan true) [Sample.policy ACTIVE]
       [Sample.claim SUBMITTED])
    (Sample.t1,
     UpdateClaim (Some "alice") 1
       (ClaimUpdate.mk (Some APPROVED) (Some 100%float) None))
  = Sample.db_of (Sample.plan true) [Sample.policy ACTIVE]
      [Sample.claim SUBMITTED].
Proof.
  apply (update_claim_refused_no_effect MAPPERS
           (Sample.db_of (Sample.plan true) [Sample.policy ACTIVE]
              [Sample.claim SUBMITTED])
           Sample.t1 (Some "alice") 1
           (ClaimUpdate.mk (Some APPROVED) (Some 100%float) None)).
  left. intros u [= <-]. reflexivity.
Defined.

(** A claim is only taken against a policy on record that is active,
    from its owner or an admin: a submission against a policy that is
    missing or not active, or from a caller who neither owns the policy
    nor is an admin, changes nothing in the store, whatever the
    relationships declared. *)
Theorem create_claim_refused_no_effect
    (registry : list relationship) (db : DB) (utcnow : datetime)
    (sub : option string) (claim : ClaimCreate.t) (number : string) :
  (forall policy,
     policy_by_id (ClaimCreate.policy_id claim) db = Some policy ->
     Policy.status policy <> ACTIVE
     \/ forall caller,
          caller_of sub db = Some caller ->
          Policy.user_id policy <> User.id caller
          /\ User.role caller <> ADMIN) ->
  step registry db (utcnow, CreateClaim sub claim number) = db.
Proof.
  intros Href. as_caller u Hcaller.
  match goal with H : create_claim _ _ _ _ _ _ = Ok _ |- _ =>
    destruct (create_claim_inv _ _ _ _ _ _ _ _ H)
      as (_ & (policy & Hp & Hs & Hown) & _)
  end.
  destruct (Href policy Hp) as [Hna | Hother]; [contradiction|].
  destruct (Hother u Hcaller) as [Hno Hnr].
  destruct Hown; contradiction.
Qed.

Lemma create_claim_refused_no_effect_witness :
  step MAPPERS (Sample.db_of (Sample.plan true) [Sample.policy PENDING] [])
    (Sample.t1, CreateClaim (Some "alice") Sample.claim_request "CLM1")
  = Sample.db_of (Sample.plan true) [Sample.policy PENDING] [].
Proof.
  apply (create_claim_refused_no_effect MAPPERS
           (Sample.db_of (Sample.plan true) [Sample.policy PENDING] [])
           Sample.t1 (Some "alice") Sample.claim_request "CLM1").
  intros policy [= <-]. left. discriminate.
Defined.

(** A policy is only issued against a plan on record, and only when
    its end date is a date: an issuance for a plan id under which there
    is no plan, or with a start date less than 365 days before the last
    day of the year 9999, changes nothing in the store, whatever the
    relationships declared. *)
Theorem create_policy_refused_no_effect
    (registry : list relationship) (db : DB) (utcnow : datetime)
    (sub : option string) (policy : PolicyCreate.t) (number : string) :
  plan_by_id (PolicyCreate.plan_id policy) db = None
  \/ MAXORDINAL < ordinal (PolicyCreate.start_date policy) + 365 ->
  step registry db (utcnow, CreatePolicy sub policy number) = db.
Proof.
  intros Href. as_caller u Hcaller.
  match goal with H : create_policy _ _ _ _ _ _ = Ok _ |- _ =>
    destruct (create_policy_inv _ _ _ _ _ _ _ _ H)
      as (_ & (plan & Hp & _) & _ & _ & _ & _ & _ & Hend & _)
  end.
  destruct Href as [Hnone | Hlate]; [congruence|].
  unfold add_days in Hend.
  destruct (_ && _) eqn:Hg; [|discriminate].
  apply andb_true_iff in Hg. destruct Hg as [_ Hg].
  apply Z.leb_le in Hg. lia.
Qed.

Lemma create_policy_refused_no_effect_witness :
  step MAPPERS (Sample.db_of (Sample.plan true) [] [])
    (Sample.t1,
     CreatePolicy (Some "alice")
       (PolicyCreate.mk 7 (datetime_ymd 2024 1 1) "monthly" None) "POL1")
  = Sample.db_of (Sample.plan true) [] [].
Proof.
  apply (create_policy_refused_no_effect MAPPERS
           (Sample.db_of (Sample.plan true) [] []) Sample.t1 (Some "alice")
           (PolicyCreate.mk 7 (datetime_ymd 2024 1 1) "monthly" None)
           "POL1").
  left. reflexivity.
Defined.

(** A generated number that is taken stores nothing: an issuance, a
    submission or a payment whose policy number, claim number or payment
    reference is already in its table changes nothing in the store,
    whatever the relationships declared. *)
Theorem taken_number_no_effect
    (registry : list relationship) (db : DB) (utcnow : datetime)
    (sub : option string) (number : string) (policy : PolicyCreate.t)
    (claim : ClaimCreate.t) (payment : PaymentCreate.t) :
  (In number (map Policy.policy_number (policies db)) ->
   step registry db (utcnow, CreatePolicy sub policy number) = db)
  /\ (In number (map Claim.claim_number (claims db)) ->
      step registry db (utcnow, CreateClaim sub claim number) = db)
  /\ (In number (map Payment.payment_reference (payments db)) ->
      step registry db (utcnow, CreatePayment sub payment number) = db).
Proof.
  split; [|split]; intros Hin; as_caller u Hcaller.
  - match goal with H : create_policy _ _ _ _ _ _ = Ok _ |- _ =>
      destruct (create_policy_inv _ _ _ _ _ _ _ _ H)
        as (_ & _ & _ & _ & _ & _ & _ & _ & _ & _ & Hfresh & _)
    end. contradiction.
  - match goal with H : create_claim _ _ _ _ _ _ = Ok _ |- _ =>
      destruct (create_claim_inv _ _ _ _ _ _ _ _ H)
        as (_ & _ & _ & _ & _ & _ & _ & _ & Hfresh & _)
    end. contradiction.
  - match goal with H : create_payment _ _ _ _ _ _ = Ok _ |- _ =>
      destruct (create_payment_inv _ _ _ _ _ _ _ _ H)
        as (_ & _ & _ & _ & _ & _ & Hfresh & _)
    end. contradiction.
Qed.

(** ** Payments *)


(** ** Writes that change nothing *)

Lemma update_first_fixed {A : Type} (sel : A -> bool) (upd : A -> A)
    (l : list A) (r : A) :
  find sel l = Some r -> upd r = r -> update_first sel upd l = l.
Proof.
  induction l as [|x l IH]; simpl; [reflexivity|].
  destruct (sel x).
  - intros [= ->] ->. reflexivity.
  - intros Hf Hr. now rewrite IH.
Qed.

Lemma set_policies_same (db : DB) : set_policies db (policies db) = db.
Proof. now destruct db. Qed.

Lemma set_users_same (db : DB) : set_users db (users db) = db.
Proof. now destruct db. Qed.

(** Activating a policy that is active changes nothing in the store,
    its [updated_at] included, whoever asks and whatever the
    relationships declared. *)
Theorem activate_active_no_effect
    (registry : list relationship) (db : DB) (utcnow : datetime)
    (sub : option string) (policy_id : Z) (policy : Policy.t) :
  policy_by_id policy_id db = Some policy ->
  Policy.status policy = ACTIVE ->
  step registry db (utcnow, ActivatePolicy sub policy_id) = db.
Proof.
  intros Hf Hs. unfold step. simpl. rewrite committed_authenticated.
  destruct (get_current_user registry sub db) as [u|]; [|reflexivity].
  destruct (activate_policy registry policy_id db u utcnow)
    as [[db' p']|] eqn:E; simpl; [|reflexivity].
  destruct (activate_policy_inv _ _ _ _ _ _ _ E)
    as (_ & _ & q & Hq & _ & ->).
  rewrite (update_first_fixed _ (assign_status ACTIVE utcnow) _ policy Hf).
  - apply set_policies_same.
  - unfold assign_status. now rewrite Hs.
Qed.

Lemma activate_active_no_effect_witness :
  step MAPPERS (Sample.db_of (Sample.plan true) [Sample.policy ACTIVE] [])
    (Sample.t1, ActivatePolicy (Some "admin") 1)
  = Sample.db_of (Sample.plan true) [Sample.policy ACTIVE] [].
Proof.
  apply (activate_active_no_effect MAPPERS
           (Sample.db_of (Sample.plan true) [Sample.policy ACTIVE] [])
           Sample.t1 (Some "admin") 1 (Sample.policy ACTIVE));
    reflexivity.
Defined.

(** Deactivating a user who is not active changes nothing in the
    store, the user's [updated_at] included, whoever asks and whatever
    the relationships declared. *)
Theorem deactivate_inactive_no_effect
    (registry : list relationship) (db : DB) (utcnow : datetime)
    (sub : option string) (user_id : Z) (user : User.t) :
  user_by_id user_id db = Some user ->
  User.is_active user = false ->
  step registry db (utcnow, DeactivateUser sub user_id) = db.
Proof.
  intros Hf Ha. unfold step. simpl. rewrite committed_authenticated.
  destruct (get_current_user registry sub db) as [u|]; [|reflexivity].
  destruct (deactivate_user registry user_id db u utcnow)
    as [[db' u']|] eqn:E; simpl; [|reflexivity].
  destruct (deactivate_user_inv _ _ _ _ _ _ _ E)
    as (_ & _ & v & Hv & _ & ->).
  rewrite (update_first_fixed _ (deactivated utcnow) _ user Hf).
  - apply set_users_same.
  - unfold deactivated. now rewrite Ha.
Qed.

Lemma deactivate_inactive_no_effect_witness :
  step MAPPERS
    (mkDB [Sample.admin; deactivated Sample.t0 Sample.alice]
       [Sample.plan true] [] [] [])
    (Sample.t1, DeactivateUser (Some "admin") 2)
  = mkDB [Sample.admin; deactivated Sample.t0 Sample.alice]
      [Sample.plan true] [] [] [].
Proof.
  apply (deactivate_inactive_no_effect MAPPERS
           (mkDB [Sample.admin; deactivated Sample.t0 Sample.alice]
              [Sample.plan true] [] [] [])
           Sample.t1 (Some "admin") 2 (deactivated Sample.t0 Sample.alice));
    reflexivity.
Defined.

(** ** The end date and the anniversary *)





Example end_date_before_anniversary :
  crosses_leap_day 2024 1 = true
  /\ add_days (datetime_ymd 2024 1 1) 365 = Ok (datetime_ymd 2024 12 31).
Proof. split; reflexivity. Qed.

Example end_date_on_anniversary :
  crosses_leap_day 2025 3 = false
  /\ add_days (datetime_ymd 2025 3 1) 365 = Ok (datetime_ymd 2026 3 1).
Proof. split; reflexivity. Qed.

(** ** Keys stay unique *)

Lemma effect_unique_keys (db db' : DB) :
  effect db db' -> unique_keys db -> unique_keys db'.
Proof.
  unfold unique_keys.
  intros He (Hu & Hpl & Hpo & Hcl & Hpa & Hpn & Hcn & Hpr).
  inversion He; subst; simpl; rewrite ?map_app; simpl;
    repeat match goal with
           | H : ?f ?x = next_id _ |- _ => rewrite H; clear H
           end;
    repeat split; auto;
    try (apply NoDup_snoc; [assumption | first [apply next_id_fresh | assumption]]).
  - rewrite map_update_first; [assumption|].
    intros x. now destruct (deactivated_frame utcnow x) as [-> _].
  - rewrite map_update_first; [assumption|].
    intros x. now destruct (assign_status_frame ACTIVE utcnow x) as [-> _].
  - rewrite map_update_first; [assumption|].
    intros x. now destruct (assign_status_frame ACTIVE utcnow x) as (_ & -> & _).
  - rewrite map_update_first; [assumption|].
    intros x. now rewrite apply_claim_update_id.
  - rewrite map_update_first; [assumption|].
    intros x.
    now destruct (apply_claim_update_frame claim_update (User.id caller)
                    utcnow x) as (_ & -> & _).
Qed.

(** Ids and numbers stay unique: if no two rows of a table share an
    id, and no two policies, claims or payments share their number, this
    is still so after any sequence of requests, whatever the
    relationships declared. *)
Theorem run_unique_keys
    (registry : list relationship) (trace : list (datetime * request))
    (db : DB) :
  unique_keys db -> unique_keys (run registry db trace).
Proof.
  revert registry trace db. apply run_invariant. exact effect_unique_keys.
Qed.

Lemma run_unique_keys_witness :
  unique_keys
    (run MAPPERS
       (Sample.db_of (Sample.plan true) [Sample.policy ACTIVE]
          [Sample.claim SUBMITTED])
       [(Sample.t1, CreatePolicy (Some "alice") Sample.policy_request "POL1");
        (Sample.t1, CreatePolicy (Some "alice") Sample.policy_request "POL1");
        (Sample.t1, CreatePolicy (Some "alice") Sample.policy_request "POL2")]).
Proof.
  apply (run_unique_keys MAPPERS
           [(Sample.t1, CreatePolicy (Some "alice") Sample.policy_request
                          "POL1");
            (Sample.t1, CreatePolicy (Some "alice") Sample.policy_request
                          "POL1");
            (Sample.t1, CreatePolicy (Some "alice") Sample.policy_request
                          "POL2")]
           (Sample.db_of (Sample.plan true) [Sample.policy ACTIVE]
              [Sample.claim SUBMITTED])).
  unfold unique_keys. simpl.
  repeat split; repeat constructor; simpl; intuition discriminate.
Defined.

(** ** REALs on record *)

Lemma apply_claim_update_reals
    (claim_update : ClaimUpdate.t) (reviewer : Z) (utcnow : datetime)
    (claim : Claim.t) :
  nullable_real (Claim.approved_amount claim) ->
  nullable_real
    (Claim.approved_amount
       (apply_claim_update claim_update reviewer utcnow claim)).
Proof.
  unfold apply_claim_update.
  destruct (ClaimUpdate.status claim_update); simpl;
    (destruct (ClaimUpdate.approved_amount claim_update) as [a|];
     [|tauto]); intros _;
    (destruct (sqlite_real a) as [y|] eqn:E; simpl;
     [exact (sqlite_real_stored _ _ E) | exact I]).
Qed.

Lemma effect_reals_stored (db db' : DB) :
  effect db db' -> reals_stored db -> reals_stored db'.
Proof.
  unfold reals_stored.
  intros He (Hpl & Hpo & Hcl & Hpa). inversion He; subst; simpl; auto.
  - (* create_plan *)
    split; [|auto]. intros p Hin. apply in_app_or in Hin.
    destruct Hin as [Hin | [<- | []]]; [now apply Hpl | assumption].
  - (* create_policy *)
    split; [auto|]. split; [|auto]. intros p' Hin. apply in_app_or in Hin.
    destruct Hin as [Hin | [<- | []]]; [now apply Hpo | assumption].
  - (* activate_policy *)
    split; [auto|]. split; [|auto]. intros p' Hin.
    apply in_update_first in Hin.
    destruct Hin as [Hin | (x & Hx & ->)]; [now apply Hpo|].
    destruct (assign_status_frame ACTIVE utcnow x)
      as (_ & _ & _ & _ & _ & _ & -> & _).
    now apply Hpo.
  - (* create_claim *)
    split; [auto|]. split; [auto|]. split; [|auto]. intros c' Hin.
    apply in_app_or in Hin.
    destruct Hin as [Hin | [<- | []]]; [now apply Hcl|].
    split; [assumption|].
    match goal with H : Claim.approved_amount c = _ |- _ => rewrite H end.
    reflexivity.
  - (* update_claim *)
    split; [auto|]. split; [auto|]. split; [|auto]. intros c' Hin.
    apply in_update_first in Hin.
    destruct Hin as [Hin | (x & Hx & ->)]; [now apply Hcl|].
    destruct (Hcl x Hx) as [Hamt Happ]. split.
    + destruct (apply_claim_update_frame claim_update (User.id caller)
                  utcnow x) as (_ & _ & _ & _ & _ & _ & _ & _ & _ & -> & _).
      exact Hamt.
    + now apply apply_claim_update_reals.
  - (* create_payment *)
    split; [auto|]. split; [auto|]. split; [auto|]. intros q' Hin.
    apply in_app_or in Hin.
    destruct Hin as [Hin | [<- | []]]; [now apply Hpa | assumption].
Qed.

(** Every amount on record is a REAL as the store gives it back,
    neither a NaN nor a negative zero: if this is so of the premiums,
    coverage amounts, deductibles, copayments and out-of-pocket limits
    of the plans, of the premiums of the policies, of the claimed and
    approved amounts of the claims and of the amounts of the payments,
    it is still so after any sequence of requests, whatever the
    relationships declared.  An approved amount can be NULL. *)
Theorem run_reals_stored
    (registry : list relationship) (trace : list (datetime * request))
    (db : DB) :
  reals_stored db -> reals_stored (run registry db trace).
Proof.
  revert registry trace db. apply run_invariant. exact effect_reals_stored.
Qed.

Lemma run_reals_stored_witness :
  reals_stored
    (run MAPPERS
       (Sample.db_of (Sample.plan true) [Sample.policy ACTIVE]
          [Sample.claim SUBMITTED])
       [(Sample.t1,
         UpdateClaim (Some "admin") 1
           (ClaimUpdate.mk (Some APPROVED) (Some PrimFloat.nan) None))]).
Proof.
  apply (run_reals_stored MAPPERS
           [(Sample.t1,
             UpdateClaim (Some "admin") 1
               (ClaimUpdate.mk (Some APPROVED) (Some PrimFloat.nan) None))]
           (Sample.db_of (Sample.plan true) [Sample.policy ACTIVE]
              [Sample.claim SUBMITTED])).
  unfold reals_stored, plan_reals. simpl.
  split; [|split; [|split]].
  - intros p [<- | []]. repeat split.
  - intros p [<- | []]. reflexivity.
  - intros c [<- | []]. split; reflexivity.
  - intros q [].
Defined.

(** ** Startup *)


(** ** The service as declared *)

(** With the relationships as declared, no request changes the store:
    after any sequence of requests, startup and registration included,
    the store is as it was.  No default admin is created, nobody
    registers, and nothing is issued, claimed, reviewed or paid. *)
Theorem run_declared_no_effect
    (trace : list (datetime * request)) (db : DB) :
  run MAPPERS db trace = db.
Proof.
  unfold run. induction trace as [|req trace IH]; simpl; [reflexivity|].
  now rewrite step_declared.
Qed.

(** With the relationships as declared, every endpoint that reads or
    writes the store raises: registration, login, the listing and the
    detail of plans raise the mapper failure, and every endpoint behind
    a token answers 401 to a token that does not verify and raises the
    mapper failure for every other, before any check of the caller. *)
Theorem declared_endpoints_raise
    (db : DB) (sub : option string) (utcnow : datetime) (id skip limit : Z) :
  (forall user hashed,
     register MAPPERS user db hashed utcnow = Raise InvalidRequestError)
  /\ (forall verify_password username password,
        login MAPPERS verify_password db username password utcnow
        = Raise InvalidRequestError)
  /\ get_plans MAPPERS skip limit db = Raise InvalidRequestError
  /\ get_plan MAPPERS id db = Raise InvalidRequestError
  /\ (forall plan,
        authenticated MAPPERS sub db
          (fun u => create_plan MAPPERS plan db u utcnow)
        = Raise (declared_answer sub))
  /\ authenticated MAPPERS sub db
       (fun u => get_all_users MAPPERS skip limit db u)
     = Raise (declared_answer sub)
  /\ authenticated MAPPERS sub db
       (fun u => deactivate_user MAPPERS id db u utcnow)
     = Raise (declared_answer sub)
  /\ authenticated MAPPERS sub db (fun u => get_policy MAPPERS id db u)
     = Raise (declared_answer sub)
  /\ authenticated MAPPERS sub db (fun u => get_claim MAPPERS id db u)
     = Raise (declared_answer sub)
  /\ (forall payment reference,
        authenticated MAPPERS sub db
          (fun u => create_payment MAPPERS payment db u reference utcnow)
        = Raise (declared_answer sub)).
Proof.
  repeat split; intros; try apply authenticated_declared; reflexivity.
Qed.

(** ** The access token *)

Lemma add_minutes_inv (d e : datetime) (n : Z) :
  add_minutes d n = Ok e ->
  ordinal e * MICROSECONDS_PER_DAY + microsecond_of_day e
  = ordinal d * MICROSECONDS_PER_DAY + microsecond_of_day d + n * 60000000
  /\ 0 <= microsecond_of_day e < MICROSECONDS_PER_DAY.
Proof.
  unfold add_minutes. destruct (_ && _); [|discriminate].
  intros [= <-]. simpl. unfold MICROSECONDS_PER_DAY.
  split; [|apply Z.mod_pos_bound; lia].
  pose proof (Z.div_mod (microsecond_of_day d + n * 60000000) 86400000000).
  lia.
Qed.

(** The token [create_access_token] makes expires the given number of
    minutes after it is made, and 15 minutes after when no delta is
    given or the delta is zero; its subject is the one passed in, and
    the expiry is a time of day. *)
Theorem create_access_token_expiry
    (s : string) (expires_delta : option Z) (utcnow : datetime)
    (payload : token_claims) :
  create_access_token s expires_delta utcnow = Ok payload ->
  let minutes :=
    match expires_delta with
    | Some 0 | None => 15
    | Some m => m
    end in
  token_sub payload = s
  /\ ordinal (token_exp payload) * MICROSECONDS_PER_DAY
     + microsecond_of_day (token_exp payload)
     = ordinal utcnow * MICROSECONDS_PER_DAY + microsecond_of_day utcnow
       + minutes * 60000000
  /\ 0 <= microsecond_of_day (token_exp payload) < MICROSECONDS_PER_DAY.
Proof.
  unfold create_access_token. intros H.
  destruct expires_delta as [[|m|m]|]; simpl in H |- *;
    match type of H with
    | context [add_minutes ?d ?n] =>
        destruct (add_minutes d n) as [e|] eqn:E; simpl in H;
        [|discriminate]
    end;
    injection H as <-; simpl;
    (split; [reflexivity | exact (add_minutes_inv _ _ _ E)]).
Qed.

Lemma create_access_token_expiry_witness :
  token_sub (mkClaims "alice" (mkDatetime (ymd2ord 2024 1 2) 37800000000))
  = "alice"
  /\ ymd2ord 2024 1 2 * MICROSECONDS_PER_DAY + 37800000000
     = ymd2ord 2024 1 2 * MICROSECONDS_PER_DAY + 36000000000
       + 30 * 60000000
  /\ 0 <= 37800000000 < MICROSECONDS_PER_DAY.
Proof.
  exact (create_access_token_expiry "alice"
           (Some ACCESS_TOKEN_EXPIRE_MINUTES) Sample.t1
           (mkClaims "alice" (mkDatetime (ymd2ord 2024 1 2) 37800000000))
           eq_refl).
Defined.

(** ** Relationships that configure

    None of the statements above needs the relationships to configure.
    With [User.claims] told its foreign key, as [Claim.user] is, the
    handlers get past their first query; the sample requests then go
    through as follows. *)

Example sample_trace_with_foreign_keys :
  let db :=
    run MAPPERS_WITH_FOREIGN_KEYS
      (Sample.db_of (Sample.plan true) [Sample.policy PENDING] [])
      [(Sample.t1, CreateClaim (Some "alice") Sample.claim_request
                     "CLM0000000000");
       (Sample.t1, ActivatePolicy (Some "admin") 1);
       (Sample.t1, CreateClaim (Some "alice") Sample.claim_request
                     "CLM0000000001");
       (Sample.t1, UpdateClaim (Some "admin") 1
                     (ClaimUpdate.mk (Some APPROVED) (Some 900%float) None));
       (Sample.t1, CreatePayment (Some "alice")
                     (PaymentCreate.mk 1 200%float "card" None None)
                     "PAY0000000001");
       (Sample.t1, CreatePolicy (Some "bob") Sample.policy_request
                     "POL0000000002")] in
  map Policy.status (policies db) = [ACTIVE; PENDING]
  /\ map Policy.end_date (policies db)
     = [mkDatetime (ymd2ord 2024 12 31) 0; datetime_ymd 2024 12 31]
  /\ map Claim.claim_number (claims db) = ["CLM0000000001"]
  /\ map Claim.status (claims db) = [APPROVED]
  /\ map Claim.approved_amount (claims db) = [Some 900%float]
  /\ map Claim.reviewed_by (claims db) = [Some 1]
  /\ map Payment.amount (payments db) = [200%float].
Proof. repeat split. Qed.

Example startup_with_foreign_keys :
  map User.username
    (users (step MAPPERS_WITH_FOREIGN_KEYS (mkDB [] [] [] [] [])
              (Sample.t0, Startup "$2b$12$admin")))
  = ["admin"]
  /\ step MAPPERS (mkDB [] [] [] [] []) (Sample.t0, Startup "$2b$12$admin")
     = mkDB [] [] [] [] [].
Proof. split; reflexivity. Qed.

Example listings_with_foreign_keys :
  let db :=
    Sample.db_of (Sample.plan true) [Sample.policy ACTIVE]
      [Sample.claim SUBMITTED] in
  let policies_of sub :=
    listed (authenticated MAPPERS_WITH_FOREIGN_KEYS sub db
              (fun u => get_policies MAPPERS_WITH_FOREIGN_KEYS 0 100 db u)) in
  policies_of (Some "alice") = [Sample.policy ACTIVE]
  /\ policies_of (Some "bob") = []
  /\ policies_of (Some "admin") = [Sample.policy ACTIVE]
  /\ get_policies MAPPERS_WITH_FOREIGN_KEYS 0 9223372036854775808 db
       Sample.admin
     = Raise OverflowError.
Proof. repeat split. Qed.

Example review_amounts_with_foreign_keys :
  let reviewed a :=
    map Claim.approved_amount
      (claims
         (run MAPPERS_WITH_FOREIGN_KEYS
            (Sample.db_of (Sample.plan true) [Sample.policy ACTIVE]
               [Sample.claim SUBMITTED])
            [(Sample.t1,
              UpdateClaim (Some "admin") 1
                (ClaimUpdate.mk (Some APPROVED) (Some a) None))])) in
  reviewed 900%float = [Some 900%float]
  /\ reviewed PrimFloat.nan = [None]
  /\ reviewed (-0)%float = [Some 0%float].
Proof. repeat split. Qed.
